(** * fortnitepy/friend.py: friend objects, their accessors and mutations

    A shallow embedding of [FriendBase], [Friend] and [PendingFriend].
    Python values are kept dynamic ([pyval]); every method is a computation
    in a state-and-exception monad over the object, the presence cache and
    the log of outbound calls.  The collaborators that friend.py imports
    ([UserBase], [Client], [Presence], the HTTP layer) are parameters. *)

From Stdlib Require Import String ZArith List Bool Lia.
From stdpp Require Import base gmap strings list.
Import ListNotations.
Open Scope string_scope.

(** ** Python values *)

(** The values that travel through payload dicts and through the fields that
    are assigned straight from them.  [str] is modelled by [string], so
    [len] counts the characters of the model's 8-bit alphabet. *)
#[warnings="-register-all"]
Inductive pyval : Type :=
| PNone
| PBool (b : bool)
| PInt (z : Z)
| PStr (s : string)
| PDatetime (t : Z)
| PList (l : list pyval)
| PDict (d : gmap string pyval).

Abbreviation dict := (gmap string pyval).

(** [datetime.datetime] in UTC, as microseconds since the epoch. *)
Definition Datetime : Type := Z.

(** [v == 'lit'] for a string literal: only a [str] can be equal to it. *)
Definition py_eq_str (v : pyval) (lit : string) : bool :=
  match v with
  | PStr s => String.eqb s lit
  | _ => false
  end.

(** ** Exceptions *)

(** What friend.py reads of an [HTTPException]: its [message_code]; [raw]
    stands for the rest of the server's error document. *)
Record HTTPError : Type := mkHTTPError {
  message_code : option string;
  raw : string
}.

Inductive exn : Type :=
| ValueError (msg : string)
| KeyError (key : pyval)
| IndexError
| TypeError
| AttributeError
| PartyError (msg : string)
| Forbidden (msg : string)
| HTTPException (e : HTTPError)
| OtherError (name : string).

(** ** The objects *)

(** Modelled from the spec: the slots of [UserBase] (fortnitepy/user.py is
    not part of this file): the identity fields [id], [displayName] and
    [externalAuths]. *)
Record UserBase : Type := mkUserBase {
  _id : string;
  _display_name : pyval;
  _external_auths : list pyval
}.

(** [FriendBase.__slots__]; [_favorite] is declared here although only
    [Friend._update] assigns it. *)
Record FriendBase : Type := mkFriendBase {
  user : UserBase;
  _status : pyval;
  _direction : pyval;
  _favorite : pyval;
  _created_at : Datetime
}.

Record Friend : Type := mkFriend {
  friend_base : FriendBase;
  _nickname : pyval;
  _note : pyval;
  _last_logout : option Datetime
}.

Record PendingFriend : Type := mkPendingFriend {
  pending_base : FriendBase
}.

(** Modelled from the spec: what friend.py reads of a presence
    (fortnitepy/presence.py is absent): its availability flag, its platform
    and the party it refers to, with that party's privacy flag. *)
Record PresenceParty : Type := mkPresenceParty {
  party_id : string;
  private : bool
}.

Record Presence : Type := mkPresence {
  available : bool;
  platform_of : pyval;
  party : PresenceParty
}.

(** The handle [PresenceParty.join] resolves to. *)
Record ClientParty : Type := mkClientParty {
  joined_party_id : string
}.

(** ** Outbound calls *)

(** One constructor per awaited collaborator method, named after it. *)
Inductive Call : Type :=
| block_user (user_id : string)
| remove_or_decline_friend (user_id : string)
| presence_get_last_online
| friends_get_summary
| friends_set_nickname (user_id nickname : string)
| friends_remove_nickname (user_id : string)
| friends_set_note (user_id note : string)
| friends_remove_note (user_id : string)
| send_friend_message (jid content : string)
| party_join (p : PresenceParty)
| party_invite (user_id : string).

(** The client object an instance holds in [self.client].  How the remote
    side answers is not this file's business: [http] gives the outcome of an
    awaited call from the calls made so far, [join] that of
    [PresenceParty.join], [from_iso] is [Client.from_iso]. *)
Record Client : Type := mkClient {
  from_iso : pyval -> exn + Datetime;
  http : list Call -> Call -> exn + pyval;
  join : list Call -> PresenceParty -> exn + ClientParty
}.

(** ** The world a method runs in *)

Record World : Type := mkWorld {
  self : Friend;
  presences : gmap string Presence;
  calls : list Call
}.

Definition with_self (f : Friend) (w : World) : World :=
  mkWorld f (presences w) (calls w).

Definition with_calls (cs : list Call) (w : World) : World :=
  mkWorld (self w) (presences w) cs.

(** A computation returns or raises, and leaves the world as it was at that
    moment: an exception does not undo earlier assignments. *)
Definition M (A : Type) : Type := World -> (exn + A) * World.

Definition ret {A} (a : A) : M A := fun w => (inr a, w).

Definition raise {A} (e : exn) : M A := fun w => (inl e, w).

Definition bind {A B} (c : M A) (k : A -> M B) : M B :=
  fun w =>
    match c w with
    | (inr a, w') => k a w'
    | (inl e, w') => (inl e, w')
    end.

(** [try: c  except ... as e: h e]. *)
Definition try_except {A} (c : M A) (h : exn -> M A) : M A :=
  fun w =>
    match c w with
    | (inr a, w') => (inr a, w')
    | (inl e, w') => h e w'
    end.

Definition lift {A} (r : exn + A) : M A :=
  fun w => (r, w).

Declare Scope py_scope.
Delimit Scope py_scope with py.
Notation "'do' x <- c ; k" := (bind c (fun x => k))
  (at level 10, x name, c at level 100, k at level 200) : py_scope.
Open Scope py_scope.

Definition get_self : M Friend := fun w => (inr (self w), w).

Definition modify_self (g : Friend -> Friend) : M unit :=
  fun w => (inr tt, with_self (g (self w)) w).

(** The methods [FriendBase] inherits through [super()]
    (fortnitepy/user.py is absent): [UserBase.__init__], which is handed
    the [_update] of the object under construction, the one it dispatches
    to; [UserBase._update], which acts on the identity slots only;
    [UserBase.get_raw], which serialises them; and [UserBase.jid], which
    derives the XMPP address. *)
Record UserBaseClass : Type := mkUserBaseClass {
  UserBase_init : (dict -> M unit) -> dict -> M unit;
  UserBase_update : dict -> UserBase -> (exn + unit) * UserBase;
  UserBase_get_raw : UserBase -> dict;
  UserBase_jid : UserBase -> string
}.

(** ** Operations on Python values *)

(** [d[key]] on a dict. *)
Definition dict_getitem (d : dict) (key : string) : exn + pyval :=
  match d !! key with
  | Some v => inr v
  | None => inl (KeyError (PStr key))
  end.

(** [d.get(key)] on a dict. *)
Definition dict_get (d : dict) (key : string) : pyval :=
  match d !! key with
  | Some v => v
  | None => PNone
  end.

(** [v.get(key)] on an arbitrary value: only a dict has the method. *)
Definition py_get (v : pyval) (key : string) : exn + pyval :=
  match v with
  | PDict d => inr (dict_get d key)
  | _ => inl AttributeError
  end.

(** [v['key']]. *)
Definition py_getitem (v : pyval) (key : string) : exn + pyval :=
  match v with
  | PDict d => dict_getitem d key
  | _ => inl TypeError
  end.

(** [v[0]]. *)
Definition py_first (v : pyval) : exn + pyval :=
  match v with
  | PList (x :: _) => inr x
  | PList [] => inl IndexError
  | PStr (String c _) => inr (PStr (String c EmptyString))
  | PStr EmptyString => inl IndexError
  | PDict _ => inl (KeyError (PInt 0))
  | _ => inl TypeError
  end.

(** [for x in v]: the items the loop visits. *)
Definition py_iter (v : pyval) : exn + list pyval :=
  match v with
  | PList l => inr l
  | PStr s => inr (map (fun c => PStr (String c EmptyString)) (list_ascii_of_string s))
  | PDict d => inr (map (fun kv => PStr (fst kv)) (map_to_list d))
  | _ => inl TypeError
  end.

(** ** The methods *)

Section Methods.

Variable client : Client.
Variable super : UserBaseClass.

(** [await] of a collaborator call: the call is logged, its outcome is the
    client's. *)
Definition await (c : Call) : M pyval :=
  fun w => (http client (calls w) c, with_calls (calls w ++ [c]) w).

Definition await_join (p : PresenceParty) : M ClientParty :=
  fun w => (join client (calls w) p, with_calls (calls w ++ [party_join p]) w).

(** Modelled from the spec: [Client.get_presence] (fortnitepy/client.py is
    absent) is a lookup in the presence cache keyed by id, [None] when the
    id has no entry. *)
Definition get_presence (user_id : string) : M (option Presence) :=
  fun w => (inr (presences w !! user_id), w).

(** *** FriendBase *)

Definition set_user (u : UserBase) (b : FriendBase) : FriendBase :=
  mkFriendBase u (_status b) (_direction b) (_favorite b) (_created_at b).
Definition set_status (v : pyval) (b : FriendBase) : FriendBase :=
  mkFriendBase (user b) v (_direction b) (_favorite b) (_created_at b).
Definition set_direction (v : pyval) (b : FriendBase) : FriendBase :=
  mkFriendBase (user b) (_status b) v (_favorite b) (_created_at b).
Definition set_favorite (v : pyval) (b : FriendBase) : FriendBase :=
  mkFriendBase (user b) (_status b) (_direction b) v (_created_at b).
Definition set_created_at (t : Datetime) (b : FriendBase) : FriendBase :=
  mkFriendBase (user b) (_status b) (_direction b) (_favorite b) t.

(** [FriendBase._update], as a step on the [FriendBase] slots that returns
    or raises after the assignments made so far. *)
Definition FriendBase_update (data : dict) (b : FriendBase) : (exn + unit) * FriendBase :=
  match UserBase_update super data (user b) with
  | (inl e, u) => (inl e, set_user u b)
  | (inr _, u) =>
    let b := set_user u b in
    match dict_getitem data "status" with
    | inl e => (inl e, b)
    | inr st =>
      let b := set_status st b in
      match dict_getitem data "direction" with
      | inl e => (inl e, b)
      | inr dir =>
        let b := set_direction dir b in
        match dict_getitem data "created" with
        | inl e => (inl e, b)
        | inr created =>
          match from_iso client created with
          | inl e => (inl e, b)
          | inr t => (inr tt, set_created_at t b)
          end
        end
      end
    end
  end.

Definition status (b : FriendBase) : pyval := _status b.
Definition direction (b : FriendBase) : pyval := _direction b.
Definition created_at (b : FriendBase) : Datetime := _created_at b.

Definition inbound (b : FriendBase) : bool := py_eq_str (_direction b) "INBOUND".
Definition outgoing (b : FriendBase) : bool := py_eq_str (_direction b) "OUTGOING".

Definition FriendBase_get_raw (b : FriendBase) : dict :=
  <["created" := PDatetime (created_at b)]>
    (<["direction" := direction b]>
      (<["status" := status b]> (UserBase_get_raw super (user b)))).

(** *** Friend *)

Definition set_friend_base (b : FriendBase) (f : Friend) : Friend :=
  mkFriend b (_nickname f) (_note f) (_last_logout f).
Definition set__nickname (v : pyval) (f : Friend) : Friend :=
  mkFriend (friend_base f) v (_note f) (_last_logout f).
Definition set__note (v : pyval) (f : Friend) : Friend :=
  mkFriend (friend_base f) (_nickname f) v (_last_logout f).
Definition set__last_logout (t : option Datetime) (f : Friend) : Friend :=
  mkFriend (friend_base f) (_nickname f) (_note f) t.

Definition friend_id (f : Friend) : string := _id (user (friend_base f)).
Definition jid (f : Friend) : string := UserBase_jid super (user (friend_base f)).
Definition favorite (f : Friend) : pyval := _favorite (friend_base f).
Definition nickname (f : Friend) : pyval := _nickname f.
Definition note (f : Friend) : pyval := _note f.
Definition last_logout (f : Friend) : option Datetime := _last_logout f.

(** [Friend] does not override [get_raw]: the inherited one runs. *)
Definition Friend_get_raw (f : Friend) : dict := FriendBase_get_raw (friend_base f).
Definition PendingFriend_get_raw (p : PendingFriend) : dict :=
  FriendBase_get_raw (pending_base p).

Definition Friend_update (data : dict) : M unit :=
  fun w =>
    match FriendBase_update data (friend_base (self w)) with
    | (inl e, b) => (inl e, with_self (set_friend_base b (self w)) w)
    | (inr _, b) =>
      (inr tt,
       with_self (set_friend_base (set_favorite (dict_get data "favorite") b) (self w)) w)
    end.

(** [FriendBase.__init__] only calls [super().__init__]; the [_update] that
    one reaches on a [Friend] is [Friend._update]. *)
Definition FriendBase__init__ (data : dict) : M unit :=
  UserBase_init super Friend_update data.

Definition Friend__init__ (data : dict) : M unit :=
  do _ <- FriendBase__init__ data;
  do _ <- modify_self (set__last_logout None);
  do _ <- modify_self (set__nickname PNone);
  modify_self (set__note PNone).

Definition _update_last_logout (dt : Datetime) : M unit :=
  modify_self (set__last_logout (Some dt)).

Definition _update_summary (data : dict) : M unit :=
  do _alias <- lift (dict_getitem data "alias");
  do _ <- modify_self (set__nickname (if negb (py_eq_str _alias "") then _alias else PNone));
  do _note <- lift (dict_getitem data "note");
  modify_self (set__note (if negb (py_eq_str _note "") then _note else PNone)).

Definition last_presence : M (option Presence) :=
  do f <- get_self;
  get_presence (friend_id f).

Definition platform : M pyval :=
  do f <- get_self;
  do pres <- get_presence (friend_id f);
  match pres with
  | Some p => ret (platform_of p)
  | None => ret PNone
  end.

Definition is_online : M bool :=
  do f <- get_self;
  do pres <- get_presence (friend_id f);
  match pres with
  | None => ret false
  | Some p => ret (available p)
  end.

Definition fetch_last_logout : M (option Datetime) :=
  do presences <- await presence_get_last_online;
  do f <- get_self;
  do presence <- lift (py_get presences (friend_id f));
  do _ <- match presence with
          | PNone => ret tt
          | _ =>
            do first <- lift (py_first presence);
            do iso <- lift (py_getitem first "last_online");
            do dt <- lift (from_iso client iso);
            _update_last_logout dt
          end;
  do f <- get_self;
  ret (last_logout f).

(** The loop of [fetch_mutual_friends_count] over the items of
    [data['friends']]; falling off the end returns [None]. *)
Fixpoint mutual_of (friends : list pyval) (user_id : string) : exn + pyval :=
  match friends with
  | [] => inr PNone
  | friend :: rest =>
    match py_getitem friend "accountId" with
    | inl e => inl e
    | inr account =>
      if py_eq_str account user_id then py_getitem friend "mutual"
      else mutual_of rest user_id
    end
  end.

Definition fetch_mutual_friends_count : M pyval :=
  do data <- await friends_get_summary;
  do friends <- lift (py_getitem data "friends");
  do items <- lift (py_iter friends);
  do f <- get_self;
  lift (mutual_of items (friend_id f)).

Definition ignored : list string :=
  ["errors.com.epicgames.common.unsupported_media_type";
   "errors.com.epicgames.validation.validation_failed"].

(** [e.message_code in ignored]. *)
Definition code_in (code : option string) (l : list string) : bool :=
  match code with
  | Some c => existsb (String.eqb c) l
  | None => false
  end.

Definition set_nickname (nickname : string) : M unit :=
  if negb ((3 <=? String.length nickname)%nat && (String.length nickname <=? 16)%nat)
  then raise (ValueError "Invalid nickname length")
  else
    do f <- get_self;
    do _ <- try_except (await (friends_set_nickname (friend_id f) nickname))
              (fun e =>
                 match e with
                 | HTTPException h =>
                   if code_in (message_code h) ignored
                   then raise (ValueError "Invalid nickname")
                   else raise e
                 | _ => raise e
                 end);
    modify_self (set__nickname (PStr nickname)).

Definition remove_nickname : M unit :=
  do f <- get_self;
  do _ <- await (friends_remove_nickname (friend_id f));
  modify_self (set__nickname PNone).

Definition set_note (note : string) : M unit :=
  if negb ((3 <=? String.length note)%nat && (String.length note <=? 255)%nat)
  then raise (ValueError "Invalid note length")
  else
    do f <- get_self;
    do _ <- try_except (await (friends_set_note (friend_id f) note))
              (fun e =>
                 match e with
                 | HTTPException h =>
                   if code_in (message_code h) ignored
                   then raise (ValueError "Invalid note")
                   else raise e
                 | _ => raise e
                 end);
    modify_self (set__note (PStr note)).

Definition remove_note : M unit :=
  do f <- get_self;
  do _ <- await (friends_remove_note (friend_id f));
  modify_self (set__note PNone).

Definition block : M unit :=
  do f <- get_self;
  do _ <- await (block_user (friend_id f));
  ret tt.

Definition remove : M unit :=
  do f <- get_self;
  do _ <- await (remove_or_decline_friend (friend_id f));
  ret tt.

Definition send (content : string) : M unit :=
  do f <- get_self;
  do _ <- await (send_friend_message (jid f) content);
  ret tt.

Definition join_party : M ClientParty :=
  do _pre <- last_presence;
  match _pre with
  | None => raise (PartyError "Could not join party. Reason: Party not found")
  | Some pre =>
    if private (party pre)
    then raise (Forbidden "Could not join party. Reason: Party is private")
    else await_join (party pre)
  end.

Definition invite : M unit :=
  do f <- get_self;
  do _ <- await (party_invite (friend_id f));
  ret tt.

End Methods.

(** ** Sequences of operations *)

(** What can happen to a [Friend] during its life: a call of one of its
    methods, or the client recording or dropping a presence in its cache. *)
Inductive op : Type :=
| Call_update (data : dict)
| Call_update_last_logout (dt : Datetime)
| Call_update_summary (data : dict)
| Call_last_presence
| Call_platform
| Call_is_online
| Call_fetch_last_logout
| Call_fetch_mutual_friends_count
| Call_set_nickname (nickname : string)
| Call_remove_nickname
| Call_set_note (note : string)
| Call_remove_note
| Call_block
| Call_remove
| Call_send (content : string)
| Call_join_party
| Call_invite
| Presence_event (user_id : string) (p : option Presence).

Definition after {A} (c : M A) (w : World) : World := snd (c w).

(** The world after an operation, whether it returned or raised: the caller
    goes on with the same object. *)
Definition run_op (client : Client) (super : UserBaseClass) (o : op) (w : World) : World :=
  match o with
  | Call_update data => after (Friend_update client super data) w
  | Call_update_last_logout dt => after (_update_last_logout dt) w
  | Call_update_summary data => after (_update_summary data) w
  | Call_last_presence => after last_presence w
  | Call_platform => after platform w
  | Call_is_online => after is_online w
  | Call_fetch_last_logout => after (fetch_last_logout client) w
  | Call_fetch_mutual_friends_count => after (fetch_mutual_friends_count client) w
  | Call_set_nickname s => after (set_nickname client s) w
  | Call_remove_nickname => after (remove_nickname client) w
  | Call_set_note s => after (set_note client s) w
  | Call_remove_note => after (remove_note client) w
  | Call_block => after (block client) w
  | Call_remove => after (remove client) w
  | Call_send content => after (send client super content) w
  | Call_join_party => after (join_party client) w
  | Call_invite => after (invite client) w
  | Presence_event i (Some p) => mkWorld (self w) (<[i := p]> (presences w)) (calls w)
  | Presence_event i None => mkWorld (self w) (delete i (presences w)) (calls w)
  end.

Definition run_ops (client : Client) (super : UserBaseClass) (ops : list op) (w : World) : World :=
  fold_left (fun w o => run_op client super o w) ops w.

(** The operations that assign something other than [None] to [_nickname],
    [_note] or [_last_logout]. *)
Definition sets_annotation (o : op) : bool :=
  match o with
  | Call_update_summary _ | Call_set_nickname _ | Call_set_note _
  | Call_update_last_logout _ | Call_fetch_last_logout => true
  | _ => false
  end.

(** A length bound on an optional string field: [None], or a [str] whose
    length lies in [[lo, hi]]. *)
Definition len_within (lo hi : nat) (v : pyval) : bool :=
  match v with
  | PNone => true
  | PStr s => (lo <=? String.length s)%nat && (String.length s <=? hi)%nat
  | _ => false
  end.

(** A summary payload whose alias and note are empty or within the bounds
    the setters enforce. *)
Definition summary_within (data : dict) : bool :=
  match data !! "alias" with
  | Some a => py_eq_str a "" || len_within 3 16 a
  | None => true
  end &&
  match data !! "note" with
  | Some n => py_eq_str n "" || len_within 3 255 n
  | None => true
  end.

Definition op_within (o : op) : bool :=
  match o with
  | Call_update_summary data => summary_within data
  | _ => true
  end.

(** ** A concrete client and superclass, used to run the model *)

(** Modelled from the spec: an instance of the absent [UserBase] methods.
    [__init__] builds the object by running its [_update] on the payload,
    [_update] takes the identity fields [id], [displayName] and
    [externalAuths] from the payload, [get_raw] returns exactly these
    three, and the address is built from the id. *)
Definition sample_super : UserBaseClass :=
  mkUserBaseClass
    (fun _update data => _update data)
    (fun data u =>
       (inr tt,
        mkUserBase
          (match data !! "id" with Some (PStr s) => s | _ => _id u end)
          (dict_get data "displayName")
          (match data !! "externalAuths" with Some (PList l) => l | _ => [] end)))
    (fun u =>
       <["externalAuths" := PList (_external_auths u)]>
         (<["id" := PStr (_id u)]>
           (<["displayName" := _display_name u]> ∅)))
    (fun u => _id u ++ "@prod.ol.epicgames.com").

(** A timestamp parser that knows two instants and rejects everything else. *)
Definition sample_from_iso (v : pyval) : exn + Datetime :=
  match v with
  | PDatetime t => inr t
  | PStr s =>
    if String.eqb s "2024-01-01T00:00:00Z" then inr 1704067200000000%Z
    else if String.eqb s "2024-06-01T12:00:00.000Z" then inr 1717243200000000%Z
    else inl (ValueError "time data does not match format")
  | _ => inl TypeError
  end.

Definition validation_failed : HTTPError :=
  mkHTTPError (Some "errors.com.epicgames.validation.validation_failed") "400".

Definition throttled : HTTPError :=
  mkHTTPError (Some "errors.com.epicgames.common.throttled") "429".

Definition last_online_record : pyval :=
  PDict (<["last_online" := PStr "2024-06-01T12:00:00.000Z"]> ∅).

Definition last_online_body : pyval :=
  PDict (<["bob" := PList (last_online_record :: nil)]> ∅).

(** A remote side that accepts every request, except that it refuses the
    nickname [bad nick] as invalid and throttles the note [slow down]. *)
Definition sample_client : Client :=
  mkClient sample_from_iso
    (fun _ c =>
       match c with
       | friends_set_nickname _ n =>
         if String.eqb n "bad nick" then inl (HTTPException validation_failed) else inr PNone
       | friends_set_note _ n =>
         if String.eqb n "slow down" then inl (HTTPException throttled) else inr PNone
       | presence_get_last_online => inr last_online_body
       | _ => inr PNone
       end)
    (fun _ p => inr (mkClientParty (party_id p))).

Definition unsupported_media_type : HTTPError :=
  mkHTTPError (Some "errors.com.epicgames.common.unsupported_media_type") "415".

(** A remote side that refuses every nickname and every note as an
    unsupported media type, and answers a request it cannot identify with
    an error that has no reason code. *)
Definition media_type_client : Client :=
  mkClient sample_from_iso
    (fun _ c =>
       match c with
       | friends_set_nickname _ _ | friends_set_note _ _ =>
         inl (HTTPException unsupported_media_type)
       | _ => inl (HTTPException (mkHTTPError None "500"))
       end)
    (fun _ _ => inl (OtherError "TimeoutError")).

(** A remote side whose every request fails with a throttling error. *)
Definition failing_client : Client :=
  mkClient sample_from_iso
    (fun _ _ => inl (HTTPException throttled))
    (fun _ _ => inl (HTTPException throttled)).

Definition sample_payload : dict :=
  <["id" := PStr "bob"]>
    (<["displayName" := PStr "Bob"]>
      (<["status" := PStr "ACCEPTED"]>
        (<["direction" := PStr "INBOUND"]>
          (<["created" := PStr "2024-01-01T00:00:00Z"]>
            (<["nickname" := PStr "Bobby"]>
              (<["note" := PStr "met in a lobby"]> ∅)))))).

(** A fresh object before [__init__] has run: its slots hold nothing yet. *)
Definition blank : World :=
  mkWorld
    (mkFriend (mkFriendBase (mkUserBase "" PNone []) PNone PNone PNone 0%Z) PNone PNone None)
    ∅ [].

(** The friend built from [sample_payload]. *)
Definition bob_world : World :=
  after (Friend__init__ sample_client sample_super sample_payload) blank.

Definition bob : Friend := self bob_world.

(** Bob with every annotation set. *)
Definition annotated_bob : Friend :=
  mkFriend (set_favorite (PBool true) (friend_base bob))
    (PStr "Bobby") (PStr "met in a lobby") (Some 1717243200000000%Z).

(** A friend the last-online response of [sample_client] does not list. *)
Definition carol_world : World :=
  after (Friend__init__ sample_client sample_super (<["id" := PStr "carol"]> sample_payload))
    blank.

Definition open_party : PresenceParty := mkPresenceParty "p-1" false.
Definition closed_party : PresenceParty := mkPresenceParty "p-2" true.

(** Bob's world once a presence of his has been cached. *)
Definition bob_online (p : PresenceParty) : World :=
  run_op sample_client sample_super
    (Presence_event "bob" (Some (mkPresence true (PStr "WIN") p))) bob_world.

Definition bob_away : World :=
  run_op sample_client sample_super
    (Presence_event "bob" (Some (mkPresence false (PStr "WIN") open_party))) bob_world.

(** Summary payloads: one with an empty alias, one with a two-character
    alias. *)
Definition summary_hey : dict :=
  <["alias" := PStr ""]> (<["note" := PStr "hey"]> ∅).

Definition summary_short : dict :=
  <["alias" := PStr "ab"]> (<["note" := PStr "hey"]> ∅).

Definition sample_ops : list op :=
  [Call_set_nickname "Bobby"; Call_set_note "x"; Call_update_summary summary_hey;
   Call_is_online; Call_fetch_last_logout; Call_set_nickname "bad nick";
   Call_remove_note; Call_update sample_payload; Call_set_nickname "Robert"].

(** A last-online response whose entry for bob is an empty list. *)
Definition empty_entry_client : Client :=
  mkClient sample_from_iso
    (fun _ _ => inr (PDict (<["bob" := PList nil]> ∅)))
    (fun _ p => inr (mkClientParty (party_id p))).


(** ** PendingFriend *)

(** [PendingFriend.decline]: the pending object has no mutable state of its
    own, so the method is a step on the log of outbound calls. *)
Definition decline (client : Client) (p : PendingFriend) (log : list Call)
    : (exn + unit) * list Call :=
  let c := remove_or_decline_friend (_id (user (pending_base p))) in
  match http client log c with
  | inl e => (inl e, (log ++ [c])%list)
  | inr _ => (inr tt, (log ++ [c])%list)
  end.

(** ** Predicates of the further properties *)

(** An entry of a friend summary that names an account other than
    [user_id]. *)
Definition names_other_account (user_id : string) (friend : pyval) : Prop :=
  exists d a, friend = PDict d /\ d !! "accountId" = Some a
              /\ py_eq_str a user_id = false.

(** A method that only awaits one call [c]: the call is logged, its failure
    is the method's, its answer is dropped. *)
Definition delegates (client : Client) (m : M unit) (c : Call) (w : World) : Prop :=
  m w = (match http client (calls w) c with
         | inl e => inl e
         | inr _ => inr tt
         end,
         with_calls (calls w ++ [c]) w).

(** ** More sample data *)

(** An entry of a friend summary for [account], with [mutual] friends in
    common. *)
Definition summary_entry (account : string) (mutual : Z) : pyval :=
  PDict (<["accountId" := PStr account]> (<["mutual" := PInt mutual]> ∅)).

Definition summary_body (friends : list pyval) : pyval :=
  PDict (<["friends" := PList friends]> ∅).

(** A remote side whose friend summary lists alice, bob and bob again. *)
Definition summary_client : Client :=
  mkClient sample_from_iso
    (fun _ c =>
       match c with
       | friends_get_summary =>
         inr (summary_body
                [summary_entry "alice" 4; summary_entry "bob" 7; summary_entry "bob" 9])
       | presence_get_last_online => inr (PDict (<["bob" := PNone]> ∅))
       | _ => inr PNone
       end)
    (fun _ p => inr (mkClientParty (party_id p))).

(** A remote side whose friend summary starts with an entry that is not a
    mapping and goes on with bob's. *)
Definition broken_summary_client : Client :=
  mkClient sample_from_iso
    (fun _ c =>
       match c with
       | friends_get_summary => inr (summary_body [PInt 1; summary_entry "bob" 7])
       | _ => inr PNone
       end)
    (fun _ p => inr (mkClientParty (party_id p))).

(** Payloads that lack a key or carry a timestamp that does not parse. *)
Definition payload_without_direction : dict :=
  <["status" := PStr "PENDING"]> (<["created" := PStr "2024-06-01T12:00:00.000Z"]> ∅).

Definition payload_bad_timestamp : dict :=
  <["status" := PStr "PENDING"]>
    (<["direction" := PStr "OUTGOING"]> (<["created" := PStr "yesterday"]> ∅)).

Definition payload_outgoing : dict :=
  <["status" := PStr "PENDING"]>
    (<["direction" := PStr "OUTGOING"]>
      (<["created" := PStr "2024-06-01T12:00:00.000Z"]>
        (<["favorite" := PBool true]> ∅))).

Definition summary_without_note : dict := <["alias" := PStr "Bobby"]> ∅.

(** ** Predicates the properties are stated with *)

(** A mutation is all-or-nothing on a field: if the outbound call fails the
    method raises and the object is what it was, if it succeeds the method
    returns and the field holds the requested value. *)
Definition all_or_nothing (outcome : exn + pyval) (res : (exn + unit) * World)
    (field : Friend -> pyval) (w : World) (requested : pyval) : Prop :=
  match outcome with
  | inl _ => (exists e, fst res = inl e) /\ self (snd res) = self w
  | inr _ => fst res = inr tt /\ field (self (snd res)) = requested
  end.

(** A transport failure that carries the server's reason code [code]: an
    [HTTPException] whose [message_code] is that string. *)
Definition has_reason_code (e : exn) (code : string) : Prop :=
  exists h, e = HTTPException h /\ message_code h = Some code.

(** A transport failure whose reason code is one of the [ignored] ones. *)
Definition known_bad_input (e : exn) : Prop :=
  exists h c, e = HTTPException h /\ message_code h = Some c /\ In c ignored.

(** What the [except HTTPException] clause of the setters raises for [e]. *)
Definition reraised (msg : string) (e : exn) : exn :=
  match e with
  | HTTPException h => if code_in (message_code h) ignored then ValueError msg else e
  | _ => e
  end.

(** * Properties *)

Section Properties.

Variable client : Client.
Variable super : UserBaseClass.

(** ** The length checks of the setters *)

Lemma length_check_fails (lo hi : nat) (s : string) :
  ~ (lo <= String.length s <= hi) ->
  negb ((lo <=? String.length s)%nat && (String.length s <=? hi)%nat) = true.
Proof.
  intros H. apply negb_true_iff, andb_false_iff.
  destruct (Nat.leb_spec lo (String.length s)); [right | left; reflexivity].
  apply Nat.leb_gt. lia.
Qed.

Lemma length_check_passes (lo hi : nat) (s : string) :
  lo <= String.length s <= hi ->
  negb ((lo <=? String.length s)%nat && (String.length s <=? hi)%nat) = false.
Proof.
  intros [Hlo Hhi]. apply negb_false_iff, andb_true_iff.
  split; apply Nat.leb_le; assumption.
Qed.

Lemma set_nickname_rejected (s : string) (w : World) :
  ~ (3 <= String.length s <= 16) ->
  set_nickname client s w = (inl (ValueError "Invalid nickname length"), w).
Proof.
  intros H. unfold set_nickname. rewrite (length_check_fails 3 16 s H). reflexivity.
Qed.

Lemma set_note_rejected (s : string) (w : World) :
  ~ (3 <= String.length s <= 255) ->
  set_note client s w = (inl (ValueError "Invalid note length"), w).
Proof.
  intros H. unfold set_note. rewrite (length_check_fails 3 255 s H). reflexivity.
Qed.

Lemma set_nickname_sent (s : string) (w : World) :
  3 <= String.length s <= 16 ->
  let c := friends_set_nickname (friend_id (self w)) s in
  set_nickname client s w =
  match http client (calls w) c with
  | inl e => (inl (reraised "Invalid nickname" e), with_calls (calls w ++ [c]) w)
  | inr _ => (inr tt, with_self (set__nickname (PStr s) (self w)) (with_calls (calls w ++ [c]) w))
  end.
Proof.
  intros H c. unfold set_nickname. rewrite (length_check_passes 3 16 s H).
  unfold bind, try_except, await, get_self, modify_self, raise. cbn.
  fold c. destruct (http client (calls w) c) as [e | r]; [| reflexivity].
  destruct e; cbn; try reflexivity.
  destruct (code_in (message_code e) ignored); reflexivity.
Qed.

Lemma set_note_sent (s : string) (w : World) :
  3 <= String.length s <= 255 ->
  let c := friends_set_note (friend_id (self w)) s in
  set_note client s w =
  match http client (calls w) c with
  | inl e => (inl (reraised "Invalid note" e), with_calls (calls w ++ [c]) w)
  | inr _ => (inr tt, with_self (set__note (PStr s) (self w)) (with_calls (calls w ++ [c]) w))
  end.
Proof.
  intros H c. unfold set_note. rewrite (length_check_passes 3 255 s H).
  unfold bind, try_except, await, get_self, modify_self, raise. cbn.
  fold c. destruct (http client (calls w) c) as [e | r]; [| reflexivity].
  destruct e; cbn; try reflexivity.
  destruct (code_in (message_code e) ignored); reflexivity.
Qed.

Lemma remove_nickname_run (w : World) :
  let c := friends_remove_nickname (friend_id (self w)) in
  remove_nickname client w =
  match http client (calls w) c with
  | inl e => (inl e, with_calls (calls w ++ [c]) w)
  | inr _ => (inr tt, with_self (set__nickname PNone (self w)) (with_calls (calls w ++ [c]) w))
  end.
Proof.
  intros c. unfold remove_nickname, bind, await, get_self, modify_self. cbn.
  fold c. destruct (http client (calls w) c); reflexivity.
Qed.

Lemma remove_note_run (w : World) :
  let c := friends_remove_note (friend_id (self w)) in
  remove_note client w =
  match http client (calls w) c with
  | inl e => (inl e, with_calls (calls w ++ [c]) w)
  | inr _ => (inr tt, with_self (set__note PNone (self w)) (with_calls (calls w ++ [c]) w))
  end.
Proof.
  intros c. unfold remove_note, bind, await, get_self, modify_self. cbn.
  fold c. destruct (http client (calls w) c); reflexivity.
Qed.

Lemma code_in_spec (code : option string) (l : list string) :
  code_in code l = true <-> exists c, code = Some c /\ In c l.
Proof.
  destruct code as [c |]; cbn.
  - rewrite existsb_exists. split.
    + intros (x & Hin & Heq). apply String.eqb_eq in Heq. subst x. eauto.
    + intros (c' & [= <-] & Hin). exists c. split; [assumption | apply String.eqb_refl].
  - split; [discriminate | intros (c & [=] & _)].
Qed.

Lemma reraised_known (msg : string) (e : exn) :
  known_bad_input e -> reraised msg e = ValueError msg.
Proof.
  intros (h & c & -> & Hc & Hin). cbn.
  assert (code_in (message_code h) ignored = true) as ->; [| reflexivity].
  apply code_in_spec. eauto.
Qed.

Lemma reraised_other (msg : string) (e : exn) :
  ~ known_bad_input e -> reraised msg e = e.
Proof.
  intros H. destruct e as [| | | | | | |h|]; cbn; try reflexivity.
  destruct (code_in (message_code h) ignored) eqn:E; [| reflexivity].
  exfalso. apply H. apply code_in_spec in E as (c & Hc & Hin).
  exists h, c. auto.
Qed.

(** C1. A nickname whose length is outside [3,16], or a note whose length is
    outside [3,255], makes [set_nickname] / [set_note] raise [ValueError]
    and leaves the world exactly as it was: the log of outbound calls has
    not grown and the object, its nickname and note included, is
    untouched. *)
Theorem invalid_length_rejected_before_any_call :
  forall (nick text : string) (w : World),
    ~ (3 <= String.length nick <= 16) ->
    ~ (3 <= String.length text <= 255) ->
    set_nickname client nick w = (inl (ValueError "Invalid nickname length"), w)
    /\ set_note client text w = (inl (ValueError "Invalid note length"), w).
Proof.
  intros nick text w Hn Ht. split.
  - apply set_nickname_rejected, Hn.
  - apply set_note_rejected, Ht.
Qed.

(** C2. Each of the four mutations is all-or-nothing on its field: when the
    outbound call raises, the method raises and the object is unchanged;
    when it succeeds, the method returns and the field holds the requested
    value ([None] for the removals). *)
Theorem mutations_all_or_nothing :
  forall (w : World) (nick text : string),
    3 <= String.length nick <= 16 ->
    3 <= String.length text <= 255 ->
    let me := friend_id (self w) in
    all_or_nothing (http client (calls w) (friends_set_nickname me nick))
      (set_nickname client nick w) nickname w (PStr nick)
    /\ all_or_nothing (http client (calls w) (friends_set_note me text))
      (set_note client text w) note w (PStr text)
    /\ all_or_nothing (http client (calls w) (friends_remove_nickname me))
      (remove_nickname client w) nickname w PNone
    /\ all_or_nothing (http client (calls w) (friends_remove_note me))
      (remove_note client w) note w PNone.
Proof.
  intros w nick text Hn Ht me. unfold all_or_nothing.
  rewrite (set_nickname_sent nick w Hn), (set_note_sent text w Ht),
    remove_nickname_run, remove_note_run. cbn zeta. fold me.
  repeat split;
    match goal with
    | |- context [http client ?l ?c] => destruct (http client l c)
    end; cbn; eauto.
Qed.

Lemma known_bad_input_codes (e : exn) :
  known_bad_input e
  <-> has_reason_code e "errors.com.epicgames.common.unsupported_media_type"
      \/ has_reason_code e "errors.com.epicgames.validation.validation_failed".
Proof.
  unfold known_bad_input, has_reason_code, ignored. split.
  - intros (h & c & He & Hc & [<- | [<- | []]]); [left | right]; exists h; auto.
  - intros [(h & He & Hc) | (h & He & Hc)]; eexists h, _;
      (split; [exact He | split; [exact Hc |]]); cbn; auto.
Qed.

(** C3. When the outbound call of [set_nickname] fails, a failure whose
    reason code is [errors.com.epicgames.common.unsupported_media_type] or
    [errors.com.epicgames.validation.validation_failed] is raised again as
    [ValueError]; every other failure (another code, no code, not an
    [HTTPException]) is raised again as it is.  The same holds for
    [set_note], each method on its own. *)
Theorem transport_failure_translation :
  forall (w : World),
    (forall (nick : string) (e : exn),
        3 <= String.length nick <= 16 ->
        http client (calls w) (friends_set_nickname (friend_id (self w)) nick) = inl e ->
        (has_reason_code e "errors.com.epicgames.common.unsupported_media_type"
         \/ has_reason_code e "errors.com.epicgames.validation.validation_failed" ->
         fst (set_nickname client nick w) = inl (ValueError "Invalid nickname"))
        /\ (~ (has_reason_code e "errors.com.epicgames.common.unsupported_media_type"
               \/ has_reason_code e "errors.com.epicgames.validation.validation_failed") ->
            fst (set_nickname client nick w) = inl e))
    /\ (forall (text : string) (e : exn),
          3 <= String.length text <= 255 ->
          http client (calls w) (friends_set_note (friend_id (self w)) text) = inl e ->
          (has_reason_code e "errors.com.epicgames.common.unsupported_media_type"
           \/ has_reason_code e "errors.com.epicgames.validation.validation_failed" ->
           fst (set_note client text w) = inl (ValueError "Invalid note"))
          /\ (~ (has_reason_code e "errors.com.epicgames.common.unsupported_media_type"
                 \/ has_reason_code e "errors.com.epicgames.validation.validation_failed") ->
              fst (set_note client text w) = inl e)).
Proof.
  intros w. split.
  - intros nick e Hn He.
    rewrite (set_nickname_sent nick w Hn). cbn zeta. rewrite He. cbn.
    rewrite <- known_bad_input_codes. split; intros H.
    + now rewrite reraised_known.
    + now rewrite reraised_other.
  - intros text e Ht He.
    rewrite (set_note_sent text w Ht). cbn zeta. rewrite He. cbn.
    rewrite <- known_bad_input_codes. split; intros H.
    + now rewrite reraised_known.
    + now rewrite reraised_other.
Qed.

(** ** Serialisation *)

Lemma FriendBase_get_raw_other (b : FriendBase) (k : string) :
  k <> "status" -> k <> "direction" -> k <> "created" ->
  FriendBase_get_raw super b !! k = UserBase_get_raw super (user b) !! k.
Proof.
  intros H1 H2 H3. unfold FriendBase_get_raw.
  rewrite !lookup_insert_ne by congruence. reflexivity.
Qed.

(** C4 (as amended). [get_raw] of a [FriendBase] is the mapping of
    [UserBase.get_raw] with three more keys: [status], [direction] and
    [created] (the value of [created_at]).  [Friend] and [PendingFriend]
    inherit it as it is, so the mapping of a [Friend] does not depend on its
    favorite flag, nickname, note or last logout. *)
Theorem get_raw_is_the_base_mapping :
  forall (b : FriendBase) (f : Friend) (p : PendingFriend),
    FriendBase_get_raw super b !! "status" = Some (status b)
    /\ FriendBase_get_raw super b !! "direction" = Some (direction b)
    /\ FriendBase_get_raw super b !! "created" = Some (PDatetime (created_at b))
    /\ (forall k : string, k <> "status" -> k <> "direction" -> k <> "created" ->
          FriendBase_get_raw super b !! k = UserBase_get_raw super (user b) !! k)
    /\ Friend_get_raw super f = FriendBase_get_raw super (friend_base f)
    /\ PendingFriend_get_raw super p = FriendBase_get_raw super (pending_base p)
    /\ (forall (fav nick text : pyval) (logout : option Datetime),
          Friend_get_raw super
            (mkFriend (set_favorite fav (friend_base f)) nick text logout)
          = Friend_get_raw super f).
Proof.
  intros b f p. repeat split.
  - unfold FriendBase_get_raw.
    rewrite lookup_insert_ne by discriminate.
    rewrite lookup_insert_ne by discriminate.
    apply lookup_insert_eq.
  - unfold FriendBase_get_raw.
    rewrite lookup_insert_ne by discriminate.
    apply lookup_insert_eq.
  - unfold FriendBase_get_raw. apply lookup_insert_eq.
  - apply FriendBase_get_raw_other.
Qed.

(** ** Presence-derived accessors *)

(** C7. [is_online] is [False] when the presence cache has no entry for the
    friend's id and the cached presence's availability flag otherwise; it
    never raises and changes nothing. *)
Theorem is_online_reads_the_cache :
  forall (w : World),
    (presences w !! friend_id (self w) = None -> is_online w = (inr false, w))
    /\ (forall pre : Presence,
          presences w !! friend_id (self w) = Some pre ->
          is_online w = (inr (available pre), w)).
Proof.
  intros w. unfold is_online, bind, get_self, get_presence, ret. cbn.
  split.
  - intros ->. reflexivity.
  - intros pre ->. reflexivity.
Qed.

(** C6. [join_party] raises [PartyError] (the party cannot be found) when
    no presence is cached for the friend's id, raises [Forbidden] when the
    cached presence's party is private, and otherwise awaits that party's
    [join] and hands back its outcome: the party handle when it returns. *)
Theorem join_party_outcomes :
  forall (w : World),
    (presences w !! friend_id (self w) = None ->
      join_party client w
      = (inl (PartyError "Could not join party. Reason: Party not found"), w))
    /\ (forall pre : Presence,
          presences w !! friend_id (self w) = Some pre ->
          private (party pre) = true ->
          join_party client w
          = (inl (Forbidden "Could not join party. Reason: Party is private"), w))
    /\ (forall pre : Presence,
          presences w !! friend_id (self w) = Some pre ->
          private (party pre) = false ->
          join_party client w
          = (join client (calls w) (party pre),
             with_calls (calls w ++ [party_join (party pre)]) w)).
Proof.
  intros w.
  unfold join_party, last_presence, bind, get_self, get_presence, raise, await_join.
  cbn. repeat split.
  - intros ->. reflexivity.
  - intros pre -> ->. reflexivity.
  - intros pre -> ->. cbn. destruct (join client (calls w) (party pre)); reflexivity.
Qed.

(** ** Direction *)

(** C8. When [direction] is [INBOUND] or [OUTGOING], exactly one of
    [inbound] and [outgoing] is true. *)
Theorem inbound_xor_outgoing :
  forall (b : FriendBase),
    direction b = PStr "INBOUND" \/ direction b = PStr "OUTGOING" ->
    (inbound b = true /\ outgoing b = false)
    \/ (inbound b = false /\ outgoing b = true).
Proof.
  intros b [H | H]; unfold inbound, outgoing; unfold direction in H; rewrite H.
  - left. split; reflexivity.
  - right. split; reflexivity.
Qed.

(** ** Last logout *)

(** C9. For a response of the last-online request that is a mapping: if it
    has an entry for the friend's id (a list whose first record carries a
    [last_online] timestamp that [from_iso] parses), [fetch_last_logout]
    stores the parsed timestamp and returns it; if the id is absent, the
    cached value stays and is returned, and nothing is raised. *)
Theorem fetch_last_logout_outcomes :
  forall (w : World) (response : dict),
    http client (calls w) presence_get_last_online = inr (PDict response) ->
    let me := friend_id (self w) in
    let sent := with_calls (calls w ++ [presence_get_last_online]) w in
    (forall (record : dict) (rest : list pyval) (iso : pyval) (dt : Datetime),
        response !! me = Some (PList (PDict record :: rest)) ->
        record !! "last_online" = Some iso ->
        from_iso client iso = inr dt ->
        fetch_last_logout client w
        = (inr (Some dt), with_self (set__last_logout (Some dt) (self w)) sent))
    /\ (response !! me = None ->
        fetch_last_logout client w = (inr (last_logout (self w)), sent)).
Proof.
  intros w response Hresp me sent.
  unfold fetch_last_logout, bind, await, get_self, lift, ret, _update_last_logout,
    modify_self.
  rewrite Hresp. cbn. fold me. unfold dict_get. split.
  - intros record rest iso dt -> Hrec Hiso. cbn.
    unfold dict_getitem. rewrite Hrec. cbn. rewrite Hiso. reflexivity.
  - intros ->. reflexivity.
Qed.

(** ** Construction *)

Lemma Friend__init__run (data : dict) (w0 : World) :
  Friend__init__ client super data w0 =
  match UserBase_init super (Friend_update client super) data w0 with
  | (inl e, w') => (inl e, w')
  | (inr _, w') => (inr tt, with_self (mkFriend (friend_base (self w')) PNone PNone None) w')
  end.
Proof.
  unfold Friend__init__, FriendBase__init__, bind, modify_self.
  destruct (UserBase_init super (Friend_update client super) data w0) as [[e | []] w'];
    reflexivity.
Qed.

(** ** What one operation does to the annotations *)

Ltac run_method :=
  unfold run_op, after, Friend_update, _update_last_logout, _update_summary,
    last_presence, platform, is_online, fetch_last_logout,
    fetch_mutual_friends_count, set_nickname, remove_nickname, set_note,
    remove_note, block, remove, send, join_party, invite,
    bind, try_except, await, await_join, get_presence, get_self, modify_self,
    raise, ret, lift;
  cbn.

Ltac break_matches :=
  repeat match goal with
         | |- context [match ?x with _ => _ end] => destruct x eqn:?; cbn
         end.

(** [fetch_last_logout] touches at most the [_last_logout] slot. *)
Lemma fetch_last_logout_self (w : World) :
  self (after (fetch_last_logout client) w) = self w
  \/ exists dt, self (after (fetch_last_logout client) w)
               = set__last_logout (Some dt) (self w).
Proof.
  run_method.
  destruct (http client (calls w) presence_get_last_online) as [e | r]; cbn;
    [left; reflexivity |].
  destruct (py_get r (friend_id (self w))) as [e | presence]; cbn;
    [left; reflexivity |].
  destruct presence; cbn -[py_first]; try (left; reflexivity).
  all: match goal with
       | |- context [py_first ?v] => destruct (py_first v) as [e | first]; cbn;
                                      [left; reflexivity |]
       end.
  all: destruct (py_getitem first "last_online") as [e | iso]; cbn;
         [left; reflexivity |].
  all: destruct (from_iso client iso) as [e | dt]; cbn;
         [left; reflexivity | right; exists dt; reflexivity].
Qed.

(** The nickname after an operation is the one before, or [None], or a
    string [set_nickname] accepted, or a non-empty alias of a summary. *)
Lemma nickname_step (o : op) (w : World) :
  let v := nickname (self (run_op client super o w)) in
  v = nickname (self w)
  \/ v = PNone
  \/ (exists s, o = Call_set_nickname s /\ 3 <= String.length s <= 16 /\ v = PStr s)
  \/ (exists data, o = Call_update_summary data
        /\ data !! "alias" = Some v /\ py_eq_str v "" = false).
Proof.
  destruct o as [data | dt | data | | | | | | s | | s | | | | content | | | i p];
    cbn zeta;
    try (left; run_method; break_matches; reflexivity).
  - (* _update_summary *)
    run_method. unfold dict_getitem.
    destruct (data !! "alias") as [a |] eqn:Ha; cbn; [| left; reflexivity].
    destruct (data !! "note") as [n |]; cbn;
      (destruct (py_eq_str a "") eqn:Ea; cbn;
       [right; left; reflexivity
       | right; right; right; exists data; repeat split; assumption]).
  - (* fetch_last_logout *)
    left. unfold run_op.
    destruct (fetch_last_logout_self w) as [-> | [dt ->]]; reflexivity.
  - (* set_nickname *)
    unfold run_op, after.
    assert (3 <= String.length s <= 16 \/ ~ (3 <= String.length s <= 16)) as [H | H]
      by lia.
    + rewrite (set_nickname_sent s w H). cbn zeta.
      destruct (http client (calls w) (friends_set_nickname (friend_id (self w)) s));
        cbn; [left; reflexivity |].
      right; right; left. exists s. repeat split; apply H.
    + rewrite (set_nickname_rejected s w H). left; reflexivity.
  - (* remove_nickname *)
    unfold run_op, after. rewrite remove_nickname_run. cbn zeta.
    destruct (http client (calls w) (friends_remove_nickname (friend_id (self w))));
      [left | right; left]; reflexivity.
  - (* set_note *)
    left. unfold run_op, after.
    assert (3 <= String.length s <= 255 \/ ~ (3 <= String.length s <= 255)) as [H | H]
      by lia.
    + rewrite (set_note_sent s w H). cbn zeta.
      destruct (http client (calls w) (friends_set_note (friend_id (self w)) s));
        reflexivity.
    + rewrite (set_note_rejected s w H). reflexivity.
Qed.

(** The note after an operation, likewise. *)
Lemma note_step (o : op) (w : World) :
  let v := note (self (run_op client super o w)) in
  v = note (self w)
  \/ v = PNone
  \/ (exists s, o = Call_set_note s /\ 3 <= String.length s <= 255 /\ v = PStr s)
  \/ (exists data, o = Call_update_summary data
        /\ data !! "note" = Some v /\ py_eq_str v "" = false).
Proof.
  destruct o as [data | dt | data | | | | | | s | | s | | | | content | | | i p];
    cbn zeta;
    try (left; run_method; break_matches; reflexivity).
  - (* _update_summary *)
    run_method. unfold dict_getitem.
    destruct (data !! "alias") as [a |] eqn:Ha; cbn; [| left; reflexivity].
    destruct (data !! "note") as [n |] eqn:Hn; cbn; [| left; reflexivity].
    destruct (py_eq_str n "") eqn:En; cbn;
      [right; left; reflexivity
      | right; right; right; exists data; repeat split; assumption].
  - (* fetch_last_logout *)
    left. unfold run_op.
    destruct (fetch_last_logout_self w) as [-> | [dt ->]]; reflexivity.
  - (* set_nickname *)
    left. unfold run_op, after.
    assert (3 <= String.length s <= 16 \/ ~ (3 <= String.length s <= 16)) as [H | H]
      by lia.
    + rewrite (set_nickname_sent s w H). cbn zeta.
      destruct (http client (calls w) (friends_set_nickname (friend_id (self w)) s));
        reflexivity.
    + rewrite (set_nickname_rejected s w H). reflexivity.
  - (* set_note *)
    unfold run_op, after.
    assert (3 <= String.length s <= 255 \/ ~ (3 <= String.length s <= 255)) as [H | H]
      by lia.
    + rewrite (set_note_sent s w H). cbn zeta.
      destruct (http client (calls w) (friends_set_note (friend_id (self w)) s));
        cbn; [left; reflexivity |].
      right; right; left. exists s. repeat split; apply H.
    + rewrite (set_note_rejected s w H). left; reflexivity.
  - (* remove_note *)
    unfold run_op, after. rewrite remove_note_run. cbn zeta.
    destruct (http client (calls w) (friends_remove_note (friend_id (self w))));
      [left | right; left]; reflexivity.
Qed.

(** Only [_update_last_logout] and [fetch_last_logout] assign
    [_last_logout]. *)
Lemma last_logout_step (o : op) (w : World) :
  o <> Call_fetch_last_logout ->
  (forall dt, o <> Call_update_last_logout dt) ->
  last_logout (self (run_op client super o w)) = last_logout (self w).
Proof.
  intros Hf Hu.
  destruct o as [data | dt | data | | | | | | s | | s | | | | content | | | i p];
    try (run_method; break_matches; reflexivity).
  - exfalso. apply (Hu dt). reflexivity.
  - exfalso. apply Hf. reflexivity.
  - (* set_nickname *)
    unfold run_op, after.
    assert (3 <= String.length s <= 16 \/ ~ (3 <= String.length s <= 16)) as [H | H]
      by lia.
    + rewrite (set_nickname_sent s w H). cbn zeta.
      destruct (http client (calls w) (friends_set_nickname (friend_id (self w)) s));
        reflexivity.
    + rewrite (set_nickname_rejected s w H). reflexivity.
  - (* set_note *)
    unfold run_op, after.
    assert (3 <= String.length s <= 255 \/ ~ (3 <= String.length s <= 255)) as [H | H]
      by lia.
    + rewrite (set_note_sent s w H). cbn zeta.
      destruct (http client (calls w) (friends_set_note (friend_id (self w)) s));
        reflexivity.
    + rewrite (set_note_rejected s w H). reflexivity.
Qed.

Lemma py_eq_str_empty (v : pyval) : py_eq_str v "" = false -> v <> PStr "".
Proof. intros H ->. discriminate H. Qed.

Lemma nickname_never_empty (o : op) (w : World) :
  nickname (self w) <> PStr "" ->
  nickname (self (run_op client super o w)) <> PStr "".
Proof.
  intros H.
  destruct (nickname_step o w) as [-> | [-> | [(s & _ & Hs & ->) | (d & _ & _ & He)]]].
  - assumption.
  - discriminate.
  - intros [= ->]. cbn in Hs. lia.
  - apply py_eq_str_empty, He.
Qed.

Lemma note_never_empty (o : op) (w : World) :
  note (self w) <> PStr "" ->
  note (self (run_op client super o w)) <> PStr "".
Proof.
  intros H.
  destruct (note_step o w) as [-> | [-> | [(s & _ & Hs & ->) | (d & _ & _ & He)]]].
  - assumption.
  - discriminate.
  - intros [= ->]. cbn in Hs. lia.
  - apply py_eq_str_empty, He.
Qed.

Lemma len_within_str (lo hi : nat) (s : string) :
  lo <= String.length s <= hi -> len_within lo hi (PStr s) = true.
Proof.
  intros [Hlo Hhi]. cbn. apply andb_true_iff. split; apply Nat.leb_le; assumption.
Qed.

Lemma nickname_stays_within (o : op) (w : World) :
  op_within o = true ->
  len_within 3 16 (nickname (self w)) = true ->
  len_within 3 16 (nickname (self (run_op client super o w))) = true.
Proof.
  intros Ho H.
  destruct (nickname_step o w) as [-> | [-> | [(s & _ & Hs & ->) | (d & -> & Ha & He)]]].
  - assumption.
  - reflexivity.
  - apply len_within_str, Hs.
  - cbn in Ho. unfold summary_within in Ho. rewrite Ha, He in Ho.
    apply andb_true_iff in Ho as [Ho _]. exact Ho.
Qed.

Lemma note_stays_within (o : op) (w : World) :
  op_within o = true ->
  len_within 3 255 (note (self w)) = true ->
  len_within 3 255 (note (self (run_op client super o w))) = true.
Proof.
  intros Ho H.
  destruct (note_step o w) as [-> | [-> | [(s & _ & Hs & ->) | (d & -> & Ha & He)]]].
  - assumption.
  - reflexivity.
  - apply len_within_str, Hs.
  - cbn in Ho. unfold summary_within in Ho. rewrite Ha, He in Ho.
    apply andb_true_iff in Ho as [_ Ho]. exact Ho.
Qed.

Lemma never_empty_along (ops : list op) (w : World) :
  nickname (self w) <> PStr "" -> note (self w) <> PStr "" ->
  nickname (self (run_ops client super ops w)) <> PStr ""
  /\ note (self (run_ops client super ops w)) <> PStr "".
Proof.
  revert w. induction ops as [| o ops IH]; intros w Hn Ht; cbn.
  - split; assumption.
  - apply IH; [apply nickname_never_empty | apply note_never_empty]; assumption.
Qed.

Lemma within_along (ops : list op) (w : World) :
  forallb op_within ops = true ->
  len_within 3 16 (nickname (self w)) = true ->
  len_within 3 255 (note (self w)) = true ->
  len_within 3 16 (nickname (self (run_ops client super ops w))) = true
  /\ len_within 3 255 (note (self (run_ops client super ops w))) = true.
Proof.
  revert w. induction ops as [| o ops IH]; intros w Hops Hn Ht; cbn.
  - split; assumption.
  - cbn in Hops. apply andb_true_iff in Hops as [Ho Hops].
    apply IH; [assumption | apply nickname_stays_within | apply note_stays_within];
      assumption.
Qed.

Lemma constructed_has_no_annotations (data : dict) (w0 w : World) :
  Friend__init__ client super data w0 = (inr tt, w) ->
  nickname (self w) = PNone /\ note (self w) = PNone /\ last_logout (self w) = None.
Proof.
  rewrite Friend__init__run.
  destruct (UserBase_init super (Friend_update client super) data w0) as [[e | []] w'];
    [discriminate |].
  intros [= <-]. repeat split.
Qed.

(** C5 (as amended). Along every sequence of operations on a constructed
    [Friend], the nickname and the note are never the empty string; and
    they are [None] or within [3,16] / [3,255] as long as every summary
    payload applied by [_update_summary] carries an alias and a note that
    are empty or within these bounds ([_update_summary] itself stores
    whatever non-empty value the server sent). *)
Theorem annotation_bounds_along_sequences :
  forall (data : dict) (w0 w : World) (ops : list op),
    Friend__init__ client super data w0 = (inr tt, w) ->
    let f := self (run_ops client super ops w) in
    (nickname f <> PStr "" /\ note f <> PStr "")
    /\ (forallb op_within ops = true ->
          len_within 3 16 (nickname f) = true /\ len_within 3 255 (note f) = true).
Proof.
  intros data w0 w ops Hinit f.
  destruct (constructed_has_no_annotations data w0 w Hinit) as (Hn & Ht & _).
  split.
  - apply never_empty_along; [rewrite Hn | rewrite Ht]; discriminate.
  - intros Hops. apply within_along; [assumption | rewrite Hn | rewrite Ht]; reflexivity.
Qed.

(** C10. Whatever the payload, a [Friend] that has just been constructed has
    no nickname, no note and no last logout; construction succeeds exactly
    when [super().__init__] returns; and an operation other than a
    summary update, a setter, a logout update or a fetch leaves an absent
    nickname and note absent and does not touch the last logout. *)
Theorem fresh_friend_has_no_annotations :
  forall (data : dict) (w0 : World),
    (forall w : World,
        Friend__init__ client super data w0 = (inr tt, w) ->
        nickname (self w) = PNone /\ note (self w) = PNone
        /\ last_logout (self w) = None)
    /\ ((exists w, Friend__init__ client super data w0 = (inr tt, w))
         <-> (exists w',
                UserBase_init super (Friend_update client super) data w0 = (inr tt, w')))
    /\ (forall (o : op) (w : World),
          sets_annotation o = false ->
          (nickname (self w) = PNone ->
             nickname (self (run_op client super o w)) = PNone)
          /\ (note (self w) = PNone ->
             note (self (run_op client super o w)) = PNone)
          /\ last_logout (self (run_op client super o w)) = last_logout (self w)).
Proof.
  intros data w0. split; [| split].
  - intros w. apply constructed_has_no_annotations.
  - rewrite Friend__init__run.
    destruct (UserBase_init super (Friend_update client super) data w0)
      as [[e | []] w']; split.
    + intros [w H]. discriminate H.
    + intros [w H]. discriminate H.
    + intros _. eauto.
    + intros _. eauto.
  - intros o w Ho. repeat split.
    + intros Hn.
      destruct (nickname_step o w) as [-> | [-> | [(s & -> & _) | (d & -> & _)]]];
        [assumption | reflexivity | discriminate Ho | discriminate Ho].
    + intros Hn.
      destruct (note_step o w) as [-> | [-> | [(s & -> & _) | (d & -> & _)]]];
        [assumption | reflexivity | discriminate Ho | discriminate Ho].
    + apply last_logout_step.
      * intros ->. discriminate Ho.
      * intros dt ->. discriminate Ho.
Qed.

End Properties.

(** * The model at concrete inputs *)

(** The scenarios of the specification. *)
Example scenario_inbound_payload :
  fst (Friend__init__ sample_client sample_super sample_payload blank) = inr tt
  /\ inbound (friend_base bob) = true
  /\ outgoing (friend_base bob) = false
  /\ status (friend_base bob) = PStr "ACCEPTED"
  /\ created_at (friend_base bob) = 1704067200000000%Z.
Proof. vm_compute. repeat split. Qed.

Example scenario_update_summary :
  let w := after (_update_summary summary_hey) bob_world in
  nickname (self w) = PNone /\ note (self w) = PStr "hey".
Proof. vm_compute. split; reflexivity. Qed.

Example scenario_short_nickname :
  set_nickname sample_client "ab" bob_world
  = (inl (ValueError "Invalid nickname length"), bob_world).
Proof. vm_compute. reflexivity. Qed.

Example sample_ops_run :
  let f := self (run_ops sample_client sample_super sample_ops bob_world) in
  nickname f = PStr "Robert" /\ note f = PNone
  /\ last_logout f = Some 1717243200000000%Z.
Proof. vm_compute. repeat split. Qed.

(** A removal that fails on the wire keeps the annotation. *)
Example failed_removal_keeps_nickname :
  let w := with_self annotated_bob bob_world in
  fst (remove_nickname failing_client w) = inl (HTTPException throttled)
  /\ nickname (self (after (remove_nickname failing_client) w)) = PStr "Bobby".
Proof. vm_compute. split; reflexivity. Qed.

(** An entry that is an empty list makes [presence[0]] raise. *)
Example fetch_last_logout_empty_entry :
  fst (fetch_last_logout empty_entry_client bob_world) = inl IndexError
  /\ self (after (fetch_last_logout empty_entry_client) bob_world) = bob.
Proof. vm_compute. split; reflexivity. Qed.

(** * The properties at concrete inputs *)

Lemma invalid_length_rejected_at_bob :
  ~ (3 <= String.length "ab" <= 16)
  /\ ~ (3 <= String.length "hi" <= 255)
  /\ set_nickname sample_client "ab" bob_world
     = (inl (ValueError "Invalid nickname length"), bob_world)
  /\ set_note sample_client "hi" bob_world
     = (inl (ValueError "Invalid note length"), bob_world).
Proof.
  assert (H1 : ~ (3 <= String.length "ab" <= 16)) by (cbn; lia).
  assert (H2 : ~ (3 <= String.length "hi" <= 255)) by (cbn; lia).
  split; [exact H1 | split; [exact H2 |]].
  exact (invalid_length_rejected_before_any_call sample_client "ab" "hi" bob_world H1 H2).
Defined.

Lemma mutations_all_or_nothing_at_bob :
  (* the nickname is accepted, the note is throttled, the removals pass *)
  (fst (set_nickname sample_client "Bobby" bob_world) = inr tt
   /\ nickname (self (after (set_nickname sample_client "Bobby") bob_world)) = PStr "Bobby")
  /\ ((exists e, fst (set_note sample_client "slow down" bob_world) = inl e)
      /\ self (after (set_note sample_client "slow down") bob_world) = bob)
  /\ (fst (remove_nickname sample_client bob_world) = inr tt
      /\ nickname (self (after (remove_nickname sample_client) bob_world)) = PNone)
  /\ (fst (remove_note sample_client bob_world) = inr tt
      /\ note (self (after (remove_note sample_client) bob_world)) = PNone).
Proof.
  assert (H1 : 3 <= String.length "Bobby" <= 16) by (cbn; lia).
  assert (H2 : 3 <= String.length "slow down" <= 255) by (cbn; lia).
  exact (mutations_all_or_nothing sample_client bob_world "Bobby" "slow down" H1 H2).
Defined.

Lemma throttled_has_no_bad_code :
  ~ (has_reason_code (HTTPException throttled)
       "errors.com.epicgames.common.unsupported_media_type"
     \/ has_reason_code (HTTPException throttled)
          "errors.com.epicgames.validation.validation_failed").
Proof.
  intros [(h & [= <-] & Hc) | (h & [= <-] & Hc)]; discriminate Hc.
Defined.

Lemma transport_failure_translation_at_bob :
  (* a validation failure and an unsupported media type become ValueError *)
  fst (set_nickname sample_client "bad nick" bob_world) = inl (ValueError "Invalid nickname")
  /\ fst (set_nickname media_type_client "Bobby" bob_world)
     = inl (ValueError "Invalid nickname")
  /\ fst (set_note media_type_client "met in a lobby" bob_world)
     = inl (ValueError "Invalid note")
  (* a throttling error stays what it is *)
  /\ fst (set_note sample_client "slow down" bob_world) = inl (HTTPException throttled).
Proof.
  assert (H1 : 3 <= String.length "bad nick" <= 16) by (cbn; lia).
  assert (H2 : 3 <= String.length "Bobby" <= 16) by (cbn; lia).
  assert (H3 : 3 <= String.length "met in a lobby" <= 255) by (cbn; lia).
  assert (H4 : 3 <= String.length "slow down" <= 255) by (cbn; lia).
  split; [| split; [| split]].
  - apply (proj1 (transport_failure_translation sample_client bob_world)
             "bad nick" (HTTPException validation_failed) H1 eq_refl).
    right. exists validation_failed. split; reflexivity.
  - apply (proj1 (transport_failure_translation media_type_client bob_world)
             "Bobby" (HTTPException unsupported_media_type) H2 eq_refl).
    left. exists unsupported_media_type. split; reflexivity.
  - apply (proj2 (transport_failure_translation media_type_client bob_world)
             "met in a lobby" (HTTPException unsupported_media_type) H3 eq_refl).
    left. exists unsupported_media_type. split; reflexivity.
  - apply (proj2 (transport_failure_translation sample_client bob_world)
             "slow down" (HTTPException throttled) H4 eq_refl).
    exact throttled_has_no_bad_code.
Defined.

Lemma get_raw_of_bob :
  Friend_get_raw sample_super bob !! "status" = Some (PStr "ACCEPTED")
  /\ Friend_get_raw sample_super bob !! "direction" = Some (PStr "INBOUND")
  /\ Friend_get_raw sample_super bob !! "created" = Some (PDatetime 1704067200000000)
  /\ Friend_get_raw sample_super bob !! "id" = Some (PStr "bob")
  /\ Friend_get_raw sample_super annotated_bob = Friend_get_raw sample_super bob.
Proof.
  destruct (get_raw_is_the_base_mapping sample_super (friend_base bob) bob
              (mkPendingFriend (friend_base bob)))
    as (Hs & Hd & Hc & Hk & _ & _ & Hind).
  split; [exact Hs | split; [exact Hd | split; [exact Hc | split]]].
  - unfold Friend_get_raw.
    rewrite (Hk "id"); [reflexivity | discriminate | discriminate | discriminate].
  - exact (Hind (PBool true) (PStr "Bobby") (PStr "met in a lobby")
             (Some 1717243200000000%Z)).
Defined.

(** C4, the claim as stated fails: a [Friend] whose favorite flag, nickname,
    note and last logout are all set serialises to the six keys of the base
    mapping, none of which holds any of them: the mapping is that of the
    same friend without annotations. *)
Lemma get_raw_omits_friend_fields :
  favorite annotated_bob = PBool true
  /\ nickname annotated_bob = PStr "Bobby"
  /\ note annotated_bob = PStr "met in a lobby"
  /\ last_logout annotated_bob = Some 1717243200000000%Z
  /\ dom (Friend_get_raw sample_super annotated_bob)
     = list_to_set ["id"; "displayName"; "externalAuths"; "status"; "direction"; "created"]
  /\ Friend_get_raw sample_super annotated_bob !! "favorite" = None
  /\ Friend_get_raw sample_super annotated_bob !! "nickname" = None
  /\ Friend_get_raw sample_super annotated_bob !! "note" = None
  /\ Friend_get_raw sample_super annotated_bob !! "lastLogout" = None
  /\ Friend_get_raw sample_super annotated_bob !! "last_logout" = None
  /\ Friend_get_raw sample_super annotated_bob = Friend_get_raw sample_super bob.
Proof. repeat split; vm_compute; reflexivity. Qed.

(** C5, the claim as stated fails: a summary whose alias has two characters
    leaves a nickname of length 2. *)
Lemma update_summary_stores_short_alias :
  let w := after (_update_summary summary_short) bob_world in
  fst (_update_summary summary_short bob_world) = inr tt
  /\ nickname (self w) = PStr "ab"
  /\ String.length "ab" = 2
  /\ len_within 3 16 (nickname (self w)) = false.
Proof. vm_compute. repeat split. Qed.

Lemma annotation_bounds_at_bob :
  let f := self (run_ops sample_client sample_super sample_ops bob_world) in
  (nickname f <> PStr "" /\ note f <> PStr "")
  /\ len_within 3 16 (nickname f) = true /\ len_within 3 255 (note f) = true.
Proof.
  destruct (annotation_bounds_along_sequences sample_client sample_super
              sample_payload blank bob_world sample_ops eq_refl) as [Hne Hin].
  split; [exact Hne | exact (Hin eq_refl)].
Defined.

Lemma join_party_at_bob :
  join_party sample_client bob_world
  = (inl (PartyError "Could not join party. Reason: Party not found"), bob_world)
  /\ join_party sample_client (bob_online closed_party)
     = (inl (Forbidden "Could not join party. Reason: Party is private"),
        bob_online closed_party)
  /\ fst (join_party sample_client (bob_online open_party)) = inr (mkClientParty "p-1").
Proof.
  split; [| split].
  - exact (proj1 (join_party_outcomes sample_client bob_world) eq_refl).
  - exact (proj1 (proj2 (join_party_outcomes sample_client (bob_online closed_party)))
             (mkPresence true (PStr "WIN") closed_party) eq_refl eq_refl).
  - rewrite (proj2 (proj2 (join_party_outcomes sample_client (bob_online open_party)))
               (mkPresence true (PStr "WIN") open_party) eq_refl eq_refl).
    reflexivity.
Defined.

Lemma is_online_at_bob :
  is_online bob_world = (inr false, bob_world)
  /\ is_online (bob_online open_party) = (inr true, bob_online open_party)
  /\ is_online bob_away = (inr false, bob_away).
Proof.
  split; [| split].
  - exact (proj1 (is_online_reads_the_cache bob_world) eq_refl).
  - exact (proj2 (is_online_reads_the_cache (bob_online open_party))
             (mkPresence true (PStr "WIN") open_party) eq_refl).
  - exact (proj2 (is_online_reads_the_cache bob_away)
             (mkPresence false (PStr "WIN") open_party) eq_refl).
Defined.

Lemma inbound_xor_outgoing_at_bob :
  direction (friend_base bob) = PStr "INBOUND"
  /\ ((inbound (friend_base bob) = true /\ outgoing (friend_base bob) = false)
      \/ (inbound (friend_base bob) = false /\ outgoing (friend_base bob) = true)).
Proof.
  split; [reflexivity |].
  exact (inbound_xor_outgoing (friend_base bob) (or_introl eq_refl)).
Defined.

Lemma fetch_last_logout_at_bob_and_carol :
  (fst (fetch_last_logout sample_client bob_world) = inr (Some 1717243200000000%Z)
   /\ last_logout (self (after (fetch_last_logout sample_client) bob_world))
      = Some 1717243200000000%Z)
  /\ (fst (fetch_last_logout sample_client carol_world) = inr None
      /\ self (after (fetch_last_logout sample_client) carol_world) = self carol_world).
Proof.
  split.
  - unfold after.
    rewrite (proj1 (fetch_last_logout_outcomes sample_client bob_world
                      (<["bob" := PList (last_online_record :: nil)]> ∅) eq_refl)
               (<["last_online" := PStr "2024-06-01T12:00:00.000Z"]> ∅) nil
               (PStr "2024-06-01T12:00:00.000Z") 1717243200000000%Z
               eq_refl eq_refl eq_refl).
    split; reflexivity.
  - unfold after.
    rewrite (proj2 (fetch_last_logout_outcomes sample_client carol_world
                      (<["bob" := PList (last_online_record :: nil)]> ∅) eq_refl)
               eq_refl).
    split; reflexivity.
Defined.

Lemma fresh_friend_at_bob :
  (nickname bob = PNone /\ note bob = PNone /\ last_logout bob = None)
  /\ sample_payload !! "nickname" = Some (PStr "Bobby")
  /\ last_logout (self (run_op sample_client sample_super Call_remove_nickname bob_world))
     = None.
Proof.
  destruct (fresh_friend_has_no_annotations sample_client sample_super sample_payload blank)
    as (Hinit & _ & Hop).
  split; [exact (Hinit bob_world eq_refl) | split; [reflexivity |]].
  rewrite (proj2 (proj2 (Hop Call_remove_nickname bob_world eq_refl))).
  reflexivity.
Defined.

(** * Further properties of the methods *)

Section Further.

Variable client : Client.
Variable super : UserBaseClass.

(** ** [_update] *)

Lemma Friend_update_returns (data : dict) (w w' : World) :
  Friend_update client super data w = (inr tt, w') ->
  exists u st dir cr t,
    UserBase_update super data (user (friend_base (self w))) = (inr tt, u)
    /\ data !! "status" = Some st
    /\ data !! "direction" = Some dir
    /\ data !! "created" = Some cr
    /\ from_iso client cr = inr t
    /\ w' = with_self
              (mkFriend (mkFriendBase u st dir (dict_get data "favorite") t)
                 (_nickname (self w)) (_note (self w)) (_last_logout (self w))) w.
Proof.
  unfold Friend_update, FriendBase_update, dict_getitem.
  destruct (UserBase_update super data (user (friend_base (self w)))) as [[e | []] u];
    [discriminate |].
  destruct (data !! "status") as [st |]; [| discriminate].
  destruct (data !! "direction") as [dir |]; [| discriminate].
  destruct (data !! "created") as [cr |]; [| discriminate].
  destruct (from_iso client cr) as [e | t] eqn:Ht; [discriminate |].
  intros [= <-]. exists u, st, dir, cr, t. repeat split. exact Ht.
Qed.

(** X1. When [Friend._update] returns, the payload had [status],
    [direction] and a [created] that [from_iso] parsed; the object holds
    exactly these, its favorite flag is [data.get('favorite')], its
    nickname, note and last logout are the ones it had, and no outbound call
    was made. *)
Theorem update_takes_the_payload :
  forall (data : dict) (w w' : World),
    Friend_update client super data w = (inr tt, w') ->
    data !! "status" = Some (status (friend_base (self w')))
    /\ data !! "direction" = Some (direction (friend_base (self w')))
    /\ (exists cr, data !! "created" = Some cr
          /\ from_iso client cr = inr (created_at (friend_base (self w'))))
    /\ favorite (self w') = dict_get data "favorite"
    /\ nickname (self w') = nickname (self w)
    /\ note (self w') = note (self w)
    /\ last_logout (self w') = last_logout (self w)
    /\ calls w' = calls w
    /\ presences w' = presences w.
Proof.
  intros data w w' H.
  destruct (Friend_update_returns data w w' H)
    as (u & st & dir & cr & t & _ & Hs & Hd & Hc & Ht & ->).
  cbn. repeat split; try assumption. exists cr. split; assumption.
Qed.

(** X2. [_update] is not all-or-nothing.  With the identity update passing:
    a payload without [status] raises [KeyError] before any friendship slot
    is assigned; without [direction] the new status is already stored;
    without [created], or with one that [from_iso] rejects, the new status
    and direction are already stored.  In all four cases the creation time
    and the favorite flag are the old ones. *)
Theorem update_failure_is_partial :
  forall (data : dict) (w : World) (u : UserBase),
    UserBase_update super data (user (friend_base (self w))) = (inr tt, u) ->
    let b := friend_base (self w) in
    let r := Friend_update client super data w in
    let b' := friend_base (self (snd r)) in
    (data !! "status" = None ->
       fst r = inl (KeyError (PStr "status"))
       /\ b' = mkFriendBase u (_status b) (_direction b) (_favorite b) (_created_at b))
    /\ (forall st,
          data !! "status" = Some st -> data !! "direction" = None ->
          fst r = inl (KeyError (PStr "direction"))
          /\ b' = mkFriendBase u st (_direction b) (_favorite b) (_created_at b))
    /\ (forall st dir,
          data !! "status" = Some st -> data !! "direction" = Some dir ->
          data !! "created" = None ->
          fst r = inl (KeyError (PStr "created"))
          /\ b' = mkFriendBase u st dir (_favorite b) (_created_at b))
    /\ (forall st dir cr e,
          data !! "status" = Some st -> data !! "direction" = Some dir ->
          data !! "created" = Some cr -> from_iso client cr = inl e ->
          fst r = inl e
          /\ b' = mkFriendBase u st dir (_favorite b) (_created_at b)).
Proof.
  intros data w u Hu b r b'. subst r b' b.
  unfold Friend_update, FriendBase_update, dict_getitem. rewrite Hu.
  repeat split.
  - rewrite H. reflexivity.
  - rewrite H. reflexivity.
  - rewrite H, H0. reflexivity.
  - rewrite H, H0. reflexivity.
  - rewrite H, H0, H1. reflexivity.
  - rewrite H, H0, H1. reflexivity.
  - rewrite H, H0, H1, H2. reflexivity.
  - rewrite H, H0, H1, H2. reflexivity.
Qed.

(** X3. What [_update] took from a payload is what [get_raw] gives back:
    after a successful [_update], the mapping holds the payload's [status]
    and [direction] as they came and, under [created], the parsed
    timestamp. *)
Theorem get_raw_after_update :
  forall (data : dict) (w w' : World),
    Friend_update client super data w = (inr tt, w') ->
    Friend_get_raw super (self w') !! "status" = data !! "status"
    /\ Friend_get_raw super (self w') !! "direction" = data !! "direction"
    /\ exists cr t,
         data !! "created" = Some cr /\ from_iso client cr = inr t
         /\ Friend_get_raw super (self w') !! "created" = Some (PDatetime t).
Proof.
  intros data w w' H.
  destruct (Friend_update_returns data w w' H)
    as (u & st & dir & cr & t & _ & Hs & Hd & Hc & Ht & ->).
  unfold Friend_get_raw, FriendBase_get_raw. cbn.
  rewrite Hs, Hd. repeat split.
  - rewrite lookup_insert_ne by discriminate.
    rewrite lookup_insert_ne by discriminate.
    apply lookup_insert_eq.
  - rewrite lookup_insert_ne by discriminate. apply lookup_insert_eq.
  - exists cr, t. repeat split; try assumption. apply lookup_insert_eq.
Qed.

(** ** Direction *)

(** X4. Whatever [direction] holds, [inbound] and [outgoing] are never both
    true; they are both false exactly when it is neither of the two
    literals. *)
Theorem inbound_outgoing_never_both :
  forall (b : FriendBase),
    inbound b && outgoing b = false
    /\ ((inbound b = false /\ outgoing b = false)
         <-> (direction b <> PStr "INBOUND" /\ direction b <> PStr "OUTGOING")).
Proof.
  intros b. unfold inbound, outgoing, direction.
  destruct (_direction b) as [| | | s | | |]; cbn;
    try (split; [reflexivity | split; [intros _; split; discriminate | intros _; split; reflexivity]]).
  destruct (String.eqb_spec s "INBOUND") as [-> | Hi].
  - cbn. split; [reflexivity |]. split.
    + intros [H _]. discriminate H.
    + intros [H _]. exfalso. apply H. reflexivity.
  - cbn. split; [reflexivity |].
    destruct (String.eqb_spec s "OUTGOING") as [-> | Ho]; split.
    + intros [_ H]. discriminate H.
    + intros [_ H]. exfalso. apply H. reflexivity.
    + intros _. split; intros [= ->]; [apply Hi | apply Ho]; reflexivity.
    + intros _. split; reflexivity.
Qed.

(** ** [_update_summary] *)

Lemma _update_summary_run (data : dict) (w : World) :
  _update_summary data w =
  match data !! "alias" with
  | None => (inl (KeyError (PStr "alias")), w)
  | Some a =>
    let f := set__nickname (if py_eq_str a "" then PNone else a) (self w) in
    match data !! "note" with
    | None => (inl (KeyError (PStr "note")), with_self f w)
    | Some n =>
      (inr tt, with_self (set__note (if py_eq_str n "" then PNone else n) f) w)
    end
  end.
Proof.
  unfold _update_summary, bind, lift, modify_self, dict_getitem.
  destruct (data !! "alias") as [a |]; [| reflexivity]. cbn.
  destruct (data !! "note") as [n |]; cbn;
    destruct (py_eq_str a ""); try destruct (py_eq_str n ""); reflexivity.
Qed.

(** X5. A summary with both keys replaces both annotations, whatever they
    were: the nickname becomes the alias and the note the payload's note,
    each [None] when the payload has the empty string; the friendship
    record and the last logout stay, and no call is made. *)
Theorem update_summary_replaces_annotations :
  forall (data : dict) (a n : pyval) (w : World),
    data !! "alias" = Some a ->
    data !! "note" = Some n ->
    _update_summary data w
    = (inr tt,
       with_self
         (mkFriend (friend_base (self w))
            (if py_eq_str a "" then PNone else a)
            (if py_eq_str n "" then PNone else n)
            (last_logout (self w)))
         w).
Proof.
  intros data a n w Ha Hn. rewrite _update_summary_run, Ha, Hn. reflexivity.
Qed.

(** X6. A summary without [alias] raises [KeyError] and changes nothing; a
    summary with an alias but without [note] raises [KeyError] after the
    nickname has been replaced, and the note is the old one. *)
Theorem update_summary_missing_key :
  forall (data : dict) (w : World),
    (data !! "alias" = None ->
       _update_summary data w = (inl (KeyError (PStr "alias")), w))
    /\ (forall a,
          data !! "alias" = Some a -> data !! "note" = None ->
          fst (_update_summary data w) = inl (KeyError (PStr "note"))
          /\ nickname (self (after (_update_summary data) w))
             = (if py_eq_str a "" then PNone else a)
          /\ note (self (after (_update_summary data) w)) = note (self w)).
Proof.
  intros data w. unfold after. rewrite _update_summary_run. split.
  - intros ->. reflexivity.
  - intros a -> ->. cbn. repeat split.
Qed.

(** X7. Applying the same summary twice is the same as applying it once,
    outcome and object alike. *)
Theorem update_summary_idempotent :
  forall (data : dict) (w : World),
    _update_summary data (after (_update_summary data) w) = _update_summary data w.
Proof.
  intros data w. unfold after. rewrite !_update_summary_run.
  destruct (data !! "alias") as [a |]; [| reflexivity].
  destruct (data !! "note") as [n |]; reflexivity.
Qed.

(** ** Presence-derived accessors *)

(** X8. [last_presence], [platform] and [is_online] never raise and leave
    the world as it is, and they agree with each other: when [is_online]
    answers [True] there is a cached presence, it is available, and
    [platform] is its platform; when [last_presence] is [None],
    [is_online] answers [False] and [platform] is [None]. *)
Theorem presence_accessors_agree :
  forall (w : World),
    (exists p, last_presence w = (inr p, w))
    /\ (exists v, platform w = (inr v, w))
    /\ (exists b, is_online w = (inr b, w))
    /\ (fst (is_online w) = inr true ->
         exists pre, fst (last_presence w) = inr (Some pre)
                     /\ available pre = true
                     /\ fst (platform w) = inr (platform_of pre))
    /\ (fst (last_presence w) = inr None ->
         fst (is_online w) = inr false /\ fst (platform w) = inr PNone).
Proof.
  intros w.
  unfold last_presence, platform, is_online, bind, get_self, get_presence, ret. cbn.
  destruct (presences w !! friend_id (self w)) as [pre |]; cbn.
  - split; [eauto | split; [eauto | split; [eauto | split]]].
    + intros [= Hav]. exists pre. repeat split. exact Hav.
    + intros [= ].
  - split; [eauto | split; [eauto | split; [eauto | split]]].
    + intros [= ].
    + intros _. split; reflexivity.
Qed.

(** ** [fetch_mutual_friends_count] *)

Lemma fetch_mutual_friends_count_run (w : World) :
  fetch_mutual_friends_count client w =
  let sent := with_calls (calls w ++ [friends_get_summary]) w in
  match http client (calls w) friends_get_summary with
  | inl e => (inl e, sent)
  | inr data =>
    match py_getitem data "friends" with
    | inl e => (inl e, sent)
    | inr friends =>
      match py_iter friends with
      | inl e => (inl e, sent)
      | inr items => (mutual_of items (friend_id (self w)), sent)
      end
    end
  end.
Proof.
  unfold fetch_mutual_friends_count, bind, await, lift, get_self. cbn.
  destruct (http client (calls w) friends_get_summary) as [e | data]; [reflexivity |].
  destruct (py_getitem data "friends") as [e | friends]; [reflexivity |].
  destruct (py_iter friends) as [e | items]; reflexivity.
Qed.

Lemma mutual_of_skips (user_id : string) (before rest : list pyval) :
  Forall (names_other_account user_id) before ->
  mutual_of (before ++ rest) user_id = mutual_of rest user_id.
Proof.
  induction 1 as [| friend before (d & a & -> & Ha & Hne) _ IH]; [reflexivity |].
  cbn. unfold dict_getitem. rewrite Ha, Hne. exact IH.
Qed.

(** X9. When every entry of the summary names another account (an empty
    list included), [fetch_mutual_friends_count] returns [None]: it does
    not raise. *)
Theorem mutual_count_without_match :
  forall (w : World) (body : dict) (items : list pyval),
    http client (calls w) friends_get_summary = inr (PDict body) ->
    body !! "friends" = Some (PList items) ->
    Forall (names_other_account (friend_id (self w))) items ->
    fetch_mutual_friends_count client w
    = (inr PNone, with_calls (calls w ++ [friends_get_summary]) w).
Proof.
  intros w body items Hresp Hbody Hall.
  rewrite fetch_mutual_friends_count_run, Hresp. cbn. unfold dict_getitem.
  rewrite Hbody. cbn.
  rewrite <- (app_nil_r items), (mutual_of_skips _ items [] Hall). reflexivity.
Qed.

(** X10. The first entry whose [accountId] is the friend's id decides: its
    [mutual] is returned ([KeyError] if it has none), whatever follows it
    in the list, later entries for the same id included. *)
Theorem mutual_count_first_match :
  forall (w : World) (body entry : dict) (before rest : list pyval),
    http client (calls w) friends_get_summary = inr (PDict body) ->
    body !! "friends" = Some (PList (before ++ PDict entry :: rest)) ->
    Forall (names_other_account (friend_id (self w))) before ->
    entry !! "accountId" = Some (PStr (friend_id (self w))) ->
    fetch_mutual_friends_count client w
    = (dict_getitem entry "mutual", with_calls (calls w ++ [friends_get_summary]) w).
Proof.
  intros w body entry before rest Hresp Hbody Hall Hid.
  rewrite fetch_mutual_friends_count_run, Hresp. cbn. unfold dict_getitem at 1.
  rewrite Hbody. cbn.
  rewrite (mutual_of_skips _ before _ Hall). cbn. unfold dict_getitem at 1.
  rewrite Hid. cbn. rewrite String.eqb_refl. reflexivity.
Qed.

(** X11. [fetch_mutual_friends_count] makes exactly one request and never
    changes the object or the presence cache; a failed request is raised
    again as it is; and an entry that cannot be read, met before any match,
    makes the method raise even if a later entry matches. *)
Theorem mutual_count_errors :
  forall (w : World),
    after (fetch_mutual_friends_count client) w
    = with_calls (calls w ++ [friends_get_summary]) w
    /\ (forall e,
          http client (calls w) friends_get_summary = inl e ->
          fst (fetch_mutual_friends_count client w) = inl e)
    /\ (forall (body : dict) (before rest : list pyval) (bad : pyval) (e : exn),
          http client (calls w) friends_get_summary = inr (PDict body) ->
          body !! "friends" = Some (PList (before ++ bad :: rest)) ->
          Forall (names_other_account (friend_id (self w))) before ->
          py_getitem bad "accountId" = inl e ->
          fst (fetch_mutual_friends_count client w) = inl e).
Proof.
  intros w. unfold after. rewrite fetch_mutual_friends_count_run. cbn zeta.
  split; [| split].
  - destruct (http client (calls w) friends_get_summary) as [e | data]; [reflexivity |].
    destruct (py_getitem data "friends") as [e | friends]; [reflexivity |].
    destruct (py_iter friends) as [e | items]; reflexivity.
  - intros e ->. reflexivity.
  - intros body before rest bad e -> Hbody Hall Hbad. cbn. unfold dict_getitem at 1.
    rewrite Hbody. cbn.
    rewrite (mutual_of_skips _ before _ Hall). cbn. rewrite Hbad. reflexivity.
Qed.

(** ** [fetch_last_logout] *)

(** The outcomes of [fetch_last_logout]: either the request, the lookup or
    the reading of the entry raises and only the log has grown, or the
    cached value is returned, or a parsed timestamp is stored and
    returned. *)
Lemma fetch_last_logout_cases (w : World) :
  let sent := with_calls (calls w ++ [presence_get_last_online]) w in
  (exists e, fetch_last_logout client w = (inl e, sent))
  \/ fetch_last_logout client w = (inr (last_logout (self w)), sent)
  \/ (exists dt, fetch_last_logout client w
                 = (inr (Some dt), with_self (set__last_logout (Some dt) (self w)) sent)).
Proof.
  cbn zeta.
  unfold fetch_last_logout, bind, await, lift, get_self, ret, _update_last_logout,
    modify_self.
  cbn.
  destruct (http client (calls w) presence_get_last_online) as [e | r]; cbn;
    [left; eauto |].
  destruct (py_get r (friend_id (self w))) as [e | presence]; cbn; [left; eauto |].
  destruct presence; cbn -[py_first]; try (right; left; reflexivity).
  all: match goal with
       | |- context [py_first ?v] => destruct (py_first v) as [e | first]; cbn;
                                      [left; eauto |]
       end.
  all: destruct (py_getitem first "last_online") as [e | iso]; cbn; [left; eauto |].
  all: destruct (from_iso client iso) as [e | dt]; cbn; [left; eauto | right; right; eauto].
Qed.

(** X12. [fetch_last_logout] makes exactly one request and can change
    nothing but the last logout; whenever it raises, for whatever reason,
    the object is what it was; a failed request is raised again as it is;
    and an entry that is [None] counts as no entry: the cached value is
    returned. *)
Theorem fetch_last_logout_failures :
  forall (w : World),
    let w' := after (fetch_last_logout client) w in
    calls w' = (calls w ++ [presence_get_last_online])%list
    /\ presences w' = presences w
    /\ friend_base (self w') = friend_base (self w)
    /\ nickname (self w') = nickname (self w)
    /\ note (self w') = note (self w)
    /\ (forall e, fst (fetch_last_logout client w) = inl e -> self w' = self w)
    /\ (forall e,
          http client (calls w) presence_get_last_online = inl e ->
          fst (fetch_last_logout client w) = inl e)
    /\ (forall response : dict,
          http client (calls w) presence_get_last_online = inr (PDict response) ->
          response !! friend_id (self w) = Some PNone ->
          fst (fetch_last_logout client w) = inr (last_logout (self w))
          /\ self w' = self w).
Proof.
  intros w w'. subst w'. unfold after.
  split; [| split; [| split; [| split; [| split; [| split; [| split]]]]]].
  1-6: destruct (fetch_last_logout_cases w) as [[e ->] | [-> | [dt ->]]];
         try reflexivity; try (intros; reflexivity).
  - intros e [=].
  - intros e He.
    unfold fetch_last_logout, bind, await. rewrite He. reflexivity.
  - intros response Hr Hnone.
    unfold fetch_last_logout, bind, await, lift, get_self, ret. rewrite Hr. cbn.
    unfold dict_get. rewrite Hnone. cbn. split; reflexivity.
Qed.

(** ** Setters and removals *)

(** X13. [set_nickname] sends a request exactly when the length is within
    [3,16], and then a single one, carrying the friend's id and the
    nickname; whatever the outcome it leaves the note, the last logout, the
    friendship record and the presence cache alone.  Likewise [set_note]
    with [3,255] and the nickname. *)
Theorem setters_touch_one_field :
  forall (s : string) (w : World),
    let wn := after (set_nickname client s) w in
    let wt := after (set_note client s) w in
    (note (self wn) = note (self w)
     /\ last_logout (self wn) = last_logout (self w)
     /\ friend_base (self wn) = friend_base (self w)
     /\ presences wn = presences w
     /\ (3 <= String.length s <= 16 ->
          calls wn = (calls w ++ [friends_set_nickname (friend_id (self w)) s])%list)
     /\ (~ (3 <= String.length s <= 16) -> calls wn = calls w))
    /\ (nickname (self wt) = nickname (self w)
        /\ last_logout (self wt) = last_logout (self w)
        /\ friend_base (self wt) = friend_base (self w)
        /\ presences wt = presences w
        /\ (3 <= String.length s <= 255 ->
             calls wt = (calls w ++ [friends_set_note (friend_id (self w)) s])%list)
        /\ (~ (3 <= String.length s <= 255) -> calls wt = calls w)).
Proof.
  intros s w wn wt. subst wn wt. unfold after. split.
  - assert (3 <= String.length s <= 16 \/ ~ (3 <= String.length s <= 16)) as [H | H]
      by lia.
    + rewrite (set_nickname_sent client s w H). cbn zeta.
      destruct (http client (calls w) (friends_set_nickname (friend_id (self w)) s));
        cbn; repeat split; intros; try reflexivity; contradiction.
    + rewrite (set_nickname_rejected client s w H).
      cbn; repeat split; intros; try reflexivity; contradiction.
  - assert (3 <= String.length s <= 255 \/ ~ (3 <= String.length s <= 255)) as [H | H]
      by lia.
    + rewrite (set_note_sent client s w H). cbn zeta.
      destruct (http client (calls w) (friends_set_note (friend_id (self w)) s));
        cbn; repeat split; intros; try reflexivity; contradiction.
    + rewrite (set_note_rejected client s w H).
      cbn; repeat split; intros; try reflexivity; contradiction.
Qed.

(** X14. The removals check nothing locally and translate nothing: each
    sends exactly one request for the friend's id, and a failure, even one
    with a reason code the setters turn into [ValueError], is raised again
    as it is, with the object unchanged. *)
Theorem removals_reraise_as_is :
  forall (w : World) (e : exn),
    let me := friend_id (self w) in
    (calls (after (remove_nickname client) w) = (calls w ++ [friends_remove_nickname me])%list
     /\ calls (after (remove_note client) w) = (calls w ++ [friends_remove_note me])%list)
    /\ (http client (calls w) (friends_remove_nickname me) = inl e ->
         fst (remove_nickname client w) = inl e
         /\ self (after (remove_nickname client) w) = self w)
    /\ (http client (calls w) (friends_remove_note me) = inl e ->
         fst (remove_note client w) = inl e
         /\ self (after (remove_note client) w) = self w).
Proof.
  intros w e me. unfold after.
  rewrite remove_nickname_run, remove_note_run. cbn zeta. fold me.
  split; [split | split].
  - destruct (http client (calls w) (friends_remove_nickname me)); reflexivity.
  - destruct (http client (calls w) (friends_remove_note me)); reflexivity.
  - intros ->. split; reflexivity.
  - intros ->. split; reflexivity.
Qed.

(** ** Delegations *)

(** X15. [block], [remove], [send] and [invite] each make one call (to
    block the friend's id, to remove or decline it, to send the content to
    the friend's address, to invite the id) and do nothing else: a failure
    is raised again as it is, a success returns [None], and the object and
    the presence cache are never changed. *)
Theorem delegations_keep_the_object :
  forall (w : World) (content : string),
    delegates client (block client) (block_user (friend_id (self w))) w
    /\ delegates client (remove client)
         (remove_or_decline_friend (friend_id (self w))) w
    /\ delegates client (send client super content)
         (send_friend_message (jid super (self w)) content) w
    /\ delegates client (invite client) (party_invite (friend_id (self w))) w.
Proof.
  intros w content.
  unfold delegates, block, remove, send, invite, bind, await, get_self, ret. cbn.
  repeat split;
    match goal with
    | |- context [http client ?l ?c] => destruct (http client l c); reflexivity
    end.
Qed.

(** X18. Declining a pending request and removing a friend are the same
    request: for the same id and the same history of calls, [decline] and
    [remove] make the same call and end the same way. *)
Theorem decline_is_remove :
  forall (w : World) (p : PendingFriend),
    _id (user (pending_base p)) = friend_id (self w) ->
    decline client p (calls w)
    = (fst (remove client w), calls (after (remove client) w)).
Proof.
  intros w p Hid.
  unfold decline, after, remove, bind, await, get_self, ret. cbn. rewrite Hid.
  destruct (http client (calls w) (remove_or_decline_friend (friend_id (self w))));
    reflexivity.
Qed.

(** ** What no operation does *)

Lemma Friend_update_frame (data : dict) (w : World) :
  let w' := after (Friend_update client super data) w in
  calls w' = calls w /\ presences w' = presences w.
Proof.
  unfold after, Friend_update.
  destruct (FriendBase_update client super data (friend_base (self w))) as [[e | []] b];
    split; reflexivity.
Qed.

(** X16. The friendship record of a [Friend] (identity, status, direction,
    creation time, favorite flag) is changed by [_update] alone: every
    other operation, whether it returns or raises, leaves it as it is. *)
Theorem only_update_changes_the_record :
  forall (o : op) (w : World),
    (forall data, o <> Call_update data) ->
    friend_base (self (run_op client super o w)) = friend_base (self w).
Proof.
  intros o w Hnot.
  destruct o as [data | dt | data | | | | | | s | | s | | | | content | | | i p];
    unfold run_op.
  - exfalso. apply (Hnot data). reflexivity.
  - reflexivity.
  - unfold after. rewrite _update_summary_run.
    destruct (data !! "alias"); [| reflexivity].
    destruct (data !! "note"); reflexivity.
  - reflexivity.
  - unfold after, platform, bind, get_self, get_presence, ret. cbn.
    destruct (presences w !! friend_id (self w)); reflexivity.
  - unfold after, is_online, bind, get_self, get_presence, ret. cbn.
    destruct (presences w !! friend_id (self w)); reflexivity.
  - destruct (fetch_last_logout_self client w) as [-> | [dt ->]]; reflexivity.
  - unfold after. rewrite fetch_mutual_friends_count_run. cbn zeta.
    destruct (http client (calls w) friends_get_summary) as [e | data]; [reflexivity |].
    destruct (py_getitem data "friends") as [e | friends]; [reflexivity |].
    destruct (py_iter friends) as [e | items]; reflexivity.
  - unfold after.
    assert (3 <= String.length s <= 16 \/ ~ (3 <= String.length s <= 16)) as [H | H]
      by lia.
    + rewrite (set_nickname_sent client s w H). cbn zeta.
      destruct (http client (calls w) (friends_set_nickname (friend_id (self w)) s));
        reflexivity.
    + rewrite (set_nickname_rejected client s w H). reflexivity.
  - unfold after. rewrite remove_nickname_run. cbn zeta.
    destruct (http client (calls w) (friends_remove_nickname (friend_id (self w))));
      reflexivity.
  - unfold after.
    assert (3 <= String.length s <= 255 \/ ~ (3 <= String.length s <= 255)) as [H | H]
      by lia.
    + rewrite (set_note_sent client s w H). cbn zeta.
      destruct (http client (calls w) (friends_set_note (friend_id (self w)) s));
        reflexivity.
    + rewrite (set_note_rejected client s w H). reflexivity.
  - unfold after. rewrite remove_note_run. cbn zeta.
    destruct (http client (calls w) (friends_remove_note (friend_id (self w))));
      reflexivity.
  - unfold after, block, bind, await, get_self, ret. cbn.
    destruct (http client (calls w) (block_user (friend_id (self w)))); reflexivity.
  - unfold after, remove, bind, await, get_self, ret. cbn.
    destruct (http client (calls w) (remove_or_decline_friend (friend_id (self w))));
      reflexivity.
  - unfold after, send, bind, await, get_self, ret. cbn.
    destruct (http client (calls w) (send_friend_message (jid super (self w)) content));
      reflexivity.
  - unfold after, join_party, last_presence, bind, get_self, get_presence, raise,
      await_join. cbn.
    destruct (presences w !! friend_id (self w)) as [pre |]; [| reflexivity].
    destruct (private (party pre)); reflexivity.
  - unfold after, invite, bind, await, get_self, ret. cbn.
    destruct (http client (calls w) (party_invite (friend_id (self w)))); reflexivity.
  - destruct p; reflexivity.
Qed.

(** X17. Every method makes at most one outbound call, appended to the
    log, and none of them writes the presence cache; [_update],
    [_update_last_logout], [_update_summary] and the presence accessors
    make no call at all. *)
Theorem at_most_one_call :
  forall (o : op) (w : World),
    (forall i p, o <> Presence_event i p) ->
    let w' := run_op client super o w in
    presences w' = presences w
    /\ (calls w' = calls w \/ exists c, calls w' = (calls w ++ [c])%list)
    /\ (match o with
        | Call_update _ | Call_update_last_logout _ | Call_update_summary _
        | Call_last_presence | Call_platform | Call_is_online => calls w' = calls w
        | _ => True
        end).
Proof.
  intros o w Hnot w'. subst w'.
  destruct o as [data | dt | data | | | | | | s | | s | | | | content | | | i p];
    unfold run_op.
  - destruct (Friend_update_frame data w) as [Hc Hp]. rewrite Hc, Hp. auto.
  - cbn. auto.
  - unfold after. rewrite _update_summary_run.
    destruct (data !! "alias"); [| cbn; auto].
    destruct (data !! "note"); cbn; auto.
  - cbn. auto.
  - unfold after, platform, bind, get_self, get_presence, ret. cbn.
    destruct (presences w !! friend_id (self w)); cbn; auto.
  - unfold after, is_online, bind, get_self, get_presence, ret. cbn.
    destruct (presences w !! friend_id (self w)); cbn; auto.
  - unfold after.
    destruct (fetch_last_logout_cases w) as [[e ->] | [-> | [dt ->]]]; cbn; eauto.
  - unfold after. rewrite fetch_mutual_friends_count_run. cbn zeta.
    destruct (http client (calls w) friends_get_summary) as [e | data]; [cbn; eauto |].
    destruct (py_getitem data "friends") as [e | friends]; [cbn; eauto |].
    destruct (py_iter friends) as [e | items]; cbn; eauto.
  - unfold after.
    assert (3 <= String.length s <= 16 \/ ~ (3 <= String.length s <= 16)) as [H | H]
      by lia.
    + rewrite (set_nickname_sent client s w H). cbn zeta.
      destruct (http client (calls w) (friends_set_nickname (friend_id (self w)) s));
        cbn; eauto.
    + rewrite (set_nickname_rejected client s w H). cbn. auto.
  - unfold after. rewrite remove_nickname_run. cbn zeta.
    destruct (http client (calls w) (friends_remove_nickname (friend_id (self w))));
      cbn; eauto.
  - unfold after.
    assert (3 <= String.length s <= 255 \/ ~ (3 <= String.length s <= 255)) as [H | H]
      by lia.
    + rewrite (set_note_sent client s w H). cbn zeta.
      destruct (http client (calls w) (friends_set_note (friend_id (self w)) s));
        cbn; eauto.
    + rewrite (set_note_rejected client s w H). cbn. auto.
  - unfold after. rewrite remove_note_run. cbn zeta.
    destruct (http client (calls w) (friends_remove_note (friend_id (self w))));
      cbn; eauto.
  - unfold after, block, bind, await, get_self, ret. cbn.
    destruct (http client (calls w) (block_user (friend_id (self w)))); cbn; eauto.
  - unfold after, remove, bind, await, get_self, ret. cbn.
    destruct (http client (calls w) (remove_or_decline_friend (friend_id (self w))));
      cbn; eauto.
  - unfold after, send, bind, await, get_self, ret. cbn.
    destruct (http client (calls w) (send_friend_message (jid super (self w)) content));
      cbn; eauto.
  - unfold after, join_party, last_presence, bind, get_self, get_presence, raise,
      await_join. cbn.
    destruct (presences w !! friend_id (self w)) as [pre |]; [| cbn; auto].
    destruct (private (party pre)); cbn; eauto.
  - unfold after, invite, bind, await, get_self, ret. cbn.
    destruct (http client (calls w) (party_invite (friend_id (self w)))); cbn; eauto.
  - exfalso. apply (Hnot i p). reflexivity.
Qed.

End Further.

(** * The further properties at concrete inputs *)

Lemma update_takes_the_payload_at_bob :
  let w' := after (Friend_update sample_client sample_super payload_outgoing) bob_world in
  status (friend_base (self w')) = PStr "PENDING"
  /\ direction (friend_base (self w')) = PStr "OUTGOING"
  /\ created_at (friend_base (self w')) = 1717243200000000%Z
  /\ favorite (self w') = PBool true
  /\ calls w' = calls bob_world.
Proof.
  cbn zeta.
  destruct (update_takes_the_payload sample_client sample_super payload_outgoing bob_world
              (after (Friend_update sample_client sample_super payload_outgoing) bob_world)
              eq_refl)
    as (Hs & Hd & (cr & Hc & Ht) & Hf & _ & _ & _ & Hcalls & _).
  split; [| split; [| split; [| split]]].
  - apply (inj Some). rewrite <- Hs. reflexivity.
  - apply (inj Some). rewrite <- Hd. reflexivity.
  - assert (E : from_iso sample_client cr = inr 1717243200000000%Z).
    { apply (inj Some) in Hc. rewrite <- Hc. reflexivity. }
    congruence.
  - exact Hf.
  - exact Hcalls.
Defined.

Lemma update_failure_is_partial_at_bob :
  (fst (Friend_update sample_client sample_super payload_without_direction bob_world)
   = inl (KeyError (PStr "direction"))
   /\ status (friend_base
                (self (after (Friend_update sample_client sample_super
                                 payload_without_direction) bob_world)))
      = PStr "PENDING")
  /\ (fst (Friend_update sample_client sample_super payload_bad_timestamp bob_world)
      = inl (ValueError "time data does not match format")
      /\ created_at (friend_base
                       (self (after (Friend_update sample_client sample_super
                                        payload_bad_timestamp) bob_world)))
         = 1704067200000000%Z).
Proof.
  split.
  - destruct (proj1 (proj2 (update_failure_is_partial sample_client sample_super
                              payload_without_direction bob_world
                              (mkUserBase "bob" PNone []) eq_refl))
                (PStr "PENDING") eq_refl eq_refl) as [He Hb].
    split; [exact He |]. unfold after. rewrite Hb. reflexivity.
  - destruct (proj2 (proj2 (proj2 (update_failure_is_partial sample_client sample_super
                                     payload_bad_timestamp bob_world
                                     (mkUserBase "bob" PNone []) eq_refl)))
                (PStr "PENDING") (PStr "OUTGOING") (PStr "yesterday")
                (ValueError "time data does not match format")
                eq_refl eq_refl eq_refl eq_refl) as [He Hb].
    split; [exact He |]. unfold after. rewrite Hb. reflexivity.
Defined.

Lemma get_raw_after_update_at_bob :
  let w' := after (Friend_update sample_client sample_super payload_outgoing) bob_world in
  Friend_get_raw sample_super (self w') !! "status" = Some (PStr "PENDING")
  /\ Friend_get_raw sample_super (self w') !! "direction" = Some (PStr "OUTGOING").
Proof.
  cbn zeta.
  destruct (get_raw_after_update sample_client sample_super payload_outgoing bob_world
              (after (Friend_update sample_client sample_super payload_outgoing) bob_world)
              eq_refl) as (Hs & Hd & _).
  split; [rewrite Hs | rewrite Hd]; reflexivity.
Defined.

Lemma update_summary_replaces_annotations_at_bob :
  _update_summary summary_hey (with_self annotated_bob bob_world)
  = (inr tt,
     with_self
       (mkFriend (friend_base annotated_bob) PNone (PStr "hey")
          (Some 1717243200000000%Z))
       (with_self annotated_bob bob_world)).
Proof.
  exact (update_summary_replaces_annotations summary_hey (PStr "") (PStr "hey")
           (with_self annotated_bob bob_world) eq_refl eq_refl).
Defined.

Lemma update_summary_missing_key_at_bob :
  _update_summary ∅ bob_world = (inl (KeyError (PStr "alias")), bob_world)
  /\ fst (_update_summary summary_without_note (with_self annotated_bob bob_world))
     = inl (KeyError (PStr "note"))
  /\ note (self (after (_update_summary summary_without_note)
                   (with_self annotated_bob bob_world)))
     = PStr "met in a lobby".
Proof.
  split.
  - exact (proj1 (update_summary_missing_key ∅ bob_world) eq_refl).
  - destruct (proj2 (update_summary_missing_key summary_without_note
                       (with_self annotated_bob bob_world))
                (PStr "Bobby") eq_refl eq_refl) as (He & _ & Hn).
    split; [exact He | exact Hn].
Defined.

Lemma presence_accessors_agree_at_bob :
  fst (platform (bob_online open_party)) = inr (PStr "WIN")
  /\ fst (is_online bob_world) = inr false.
Proof.
  split.
  - destruct (proj1 (proj2 (proj2 (proj2 (presence_accessors_agree (bob_online open_party)))))
                eq_refl) as (pre & Hpre & _ & Hpl).
    injection Hpre as <-. exact Hpl.
  - exact (proj1 (proj2 (proj2 (proj2 (proj2 (presence_accessors_agree bob_world))))
                    eq_refl)).
Defined.

Lemma alice_is_not_bob : names_other_account "bob" (summary_entry "alice" 4).
Proof.
  exists (<["accountId" := PStr "alice"]> (<["mutual" := PInt 4]> ∅)), (PStr "alice").
  repeat split.
Defined.

Lemma only_alice_before_bob :
  Forall (names_other_account "bob") [summary_entry "alice" 4].
Proof. constructor; [exact alice_is_not_bob | constructor]. Defined.

Lemma nobody_is_carol :
  Forall (names_other_account "carol")
    [summary_entry "alice" 4; summary_entry "bob" 7; summary_entry "bob" 9].
Proof.
  repeat constructor.
  - exists (<["accountId" := PStr "alice"]> (<["mutual" := PInt 4]> ∅)), (PStr "alice").
    repeat split.
  - exists (<["accountId" := PStr "bob"]> (<["mutual" := PInt 7]> ∅)), (PStr "bob").
    repeat split.
  - exists (<["accountId" := PStr "bob"]> (<["mutual" := PInt 9]> ∅)), (PStr "bob").
    repeat split.
Defined.

Lemma mutual_count_without_match_at_carol :
  fst (fetch_mutual_friends_count summary_client carol_world) = inr PNone.
Proof.
  rewrite (mutual_count_without_match summary_client carol_world
             (<["friends" := PList [summary_entry "alice" 4; summary_entry "bob" 7;
                                    summary_entry "bob" 9]]> ∅)
             [summary_entry "alice" 4; summary_entry "bob" 7; summary_entry "bob" 9]
             eq_refl eq_refl nobody_is_carol).
  reflexivity.
Defined.

Lemma mutual_count_first_match_at_bob :
  fst (fetch_mutual_friends_count summary_client bob_world) = inr (PInt 7).
Proof.
  rewrite (mutual_count_first_match summary_client bob_world
             (<["friends" := PList [summary_entry "alice" 4; summary_entry "bob" 7;
                                    summary_entry "bob" 9]]> ∅)
             (<["accountId" := PStr "bob"]> (<["mutual" := PInt 7]> ∅))
             [summary_entry "alice" 4] [summary_entry "bob" 9]
             eq_refl eq_refl only_alice_before_bob eq_refl).
  reflexivity.
Defined.

Lemma mutual_count_errors_at_bob :
  fst (fetch_mutual_friends_count failing_client bob_world)
  = inl (HTTPException throttled)
  /\ fst (fetch_mutual_friends_count broken_summary_client bob_world) = inl TypeError.
Proof.
  split.
  - exact (proj1 (proj2 (mutual_count_errors failing_client bob_world))
             (HTTPException throttled) eq_refl).
  - exact (proj2 (proj2 (mutual_count_errors broken_summary_client bob_world))
             (<["friends" := PList [PInt 1; summary_entry "bob" 7]]> ∅)
             [] [summary_entry "bob" 7] (PInt 1) TypeError
             eq_refl eq_refl ltac:(constructor) eq_refl).
Defined.

Lemma fetch_last_logout_failures_at_bob :
  fst (fetch_last_logout failing_client bob_world) = inl (HTTPException throttled)
  /\ fst (fetch_last_logout summary_client bob_world) = inr None
  /\ self (after (fetch_last_logout summary_client) bob_world) = bob.
Proof.
  split.
  - exact (proj1 (proj2 (proj2 (proj2 (proj2 (proj2 (proj2
             (fetch_last_logout_failures failing_client bob_world)))))))
             (HTTPException throttled) eq_refl).
  - exact (proj2 (proj2 (proj2 (proj2 (proj2 (proj2 (proj2
             (fetch_last_logout_failures summary_client bob_world)))))))
             (<["bob" := PNone]> ∅) eq_refl eq_refl).
Defined.

Lemma setters_touch_one_field_at_bob :
  calls (after (set_nickname sample_client "Bobby") bob_world)
  = [friends_set_nickname "bob" "Bobby"]
  /\ calls (after (set_note sample_client "hi") bob_world) = [].
Proof.
  destruct (setters_touch_one_field sample_client "Bobby" bob_world)
    as [(_ & _ & _ & _ & Hsent & _) _].
  destruct (setters_touch_one_field sample_client "hi" bob_world)
    as [_ (_ & _ & _ & _ & _ & Hnot)].
  split.
  - apply Hsent. cbn. lia.
  - apply Hnot. cbn. lia.
Defined.

Lemma removals_reraise_as_is_at_bob :
  let w := with_self annotated_bob bob_world in
  fst (remove_nickname failing_client w) = inl (HTTPException throttled)
  /\ self (after (remove_nickname failing_client) w) = annotated_bob.
Proof.
  exact (proj1 (proj2 (removals_reraise_as_is failing_client
                         (with_self annotated_bob bob_world)
                         (HTTPException throttled)))
           eq_refl).
Defined.

Lemma decline_is_remove_at_bob :
  decline sample_client (mkPendingFriend (friend_base bob)) []
  = (inr tt, [remove_or_decline_friend "bob"]).
Proof.
  exact (decline_is_remove sample_client bob_world (mkPendingFriend (friend_base bob))
           eq_refl).
Defined.

Lemma only_update_changes_the_record_at_bob :
  friend_base (self (run_op sample_client sample_super (Call_set_nickname "Bobby") bob_world))
  = friend_base bob.
Proof.
  apply (only_update_changes_the_record sample_client sample_super
           (Call_set_nickname "Bobby") bob_world).
  intros data. discriminate.
Defined.

Lemma at_most_one_call_at_bob :
  let w' := run_op sample_client sample_super Call_fetch_last_logout bob_world in
  presences w' = presences bob_world
  /\ (calls w' = calls bob_world \/ exists c, calls w' = (calls bob_world ++ [c])%list).
Proof.
  cbn zeta.
  destruct (at_most_one_call sample_client sample_super Call_fetch_last_logout bob_world)
    as (Hp & Hc & _).
  - intros i p. discriminate.
  - split; [exact Hp | exact Hc].
Defined.
